(** * Image sanitiser: a shallow embedding of
      [services/image-sanitiser/handler.py]

    The handler receives a batch of S3 "object created" notifications,
    downloads every object, re-encodes it with Pillow so that no EXIF block
    survives, uploads the result to the output bucket and reports one
    outcome per notification.

    Layout of the development
    - Python values, exceptions and the few built-in operations the handler
      uses ([record["s3"]], [event.get], iteration, [len]);
    - the collaborators the handler does not implement itself (Pillow's
      [Image] module, the boto3 S3 client, [json.dumps], the
      [OUTPUT_BUCKET] setting), taken as parameters of a section;
    - [strip_exif_metadata] and [lambda_handler], statement by statement;
    - an in-memory S3 store and a small image codec, used as test doubles
      the way [tests/test_handler.py] uses mocks;
    - the properties. *)

From Stdlib Require Import ZArith String List Lia.
From Stdlib.Init Require Import Byte.
From Stdlib.Strings Require Byte.
From stdpp Require Import base option list strings pretty gmap.

Set Warnings "-register-all".

Local Open Scope Z_scope.
Local Open Scope string_scope.
Local Open Scope list_scope.

(** ** Python exceptions

    Only instances of [Exception] are represented: they are what
    [except Exception] catches.  [exn_str] is what [str(e)] returns. *)

Inductive exn_class : Set :=
| ImportError
| ModuleNotFoundError        (* subclass of ImportError *)
| RuntimeError
| RecursionError             (* subclass of RuntimeError *)
| KeyError
| TypeError
| AttributeError
| ValueError
| OSError
| UnidentifiedImageError     (* PIL.UnidentifiedImageError, subclass of OSError *)
| ClientError                (* botocore.exceptions.ClientError *)
| ParamValidationError.      (* botocore.exceptions.ParamValidationError *)

Record exn : Set := Exn { exn_class_of : exn_class; exn_str : string }.

(** [isinstance(e, ImportError)] *)
Definition is_ImportError (e : exn) : bool :=
  match exn_class_of e with
  | ImportError | ModuleNotFoundError => true
  | _ => false
  end.

(** [isinstance(e, OSError)] *)
Definition is_OSError (e : exn) : bool :=
  match exn_class_of e with
  | OSError | UnidentifiedImageError => true
  | _ => false
  end.

(** A computation that returns a value or raises. *)
Inductive result (A : Type) : Type :=
| Ok (a : A)
| Raise (e : exn).
Arguments Ok {A} a.
Arguments Raise {A} e.

Definition rbind {A B} (c : result A) (k : A -> result B) : result B :=
  match c with
  | Ok a => k a
  | Raise e => Raise e
  end.

Declare Scope result_scope.
Delimit Scope result_scope with result.
Notation "x <- c ;; k" := (rbind c (fun x => k))
  (at level 100, c at next level, right associativity) : result_scope.

(** ** Python values

    The values a JSON-decoded Lambda event is made of.  A [str] is a
    sequence of characters with code points below 256; a [float] is carried
    as mantissa and binary exponent and never inspected; a [dict] keeps its
    insertion order and has string keys. *)

Inductive pyval : Type :=
| PNone
| PBool (b : bool)
| PInt (n : Z)
| PFloat (m e : Z)
| PStr (s : string)
| PList (l : list pyval)
| PDict (d : list (string * pyval)).

Definition type_name (v : pyval) : string :=
  match v with
  | PNone => "NoneType"
  | PBool _ => "bool"
  | PInt _ => "int"
  | PFloat _ _ => "float"
  | PStr _ => "str"
  | PList _ => "list"
  | PDict _ => "dict"
  end.

(** Lookup of a key in a dict. *)
Fixpoint dict_lookup (k : string) (d : list (string * pyval)) : option pyval :=
  match d with
  | [] => None
  | (k', v) :: d' => if String.eqb k k' then Some v else dict_lookup k d'
  end.

(** [v[k]] for a string [k] (CPython 3.11 and later wording of the
    messages).  [str(KeyError(k))] is [repr(k)]. *)
Definition getitem (v : pyval) (k : string) : result pyval :=
  match v with
  | PDict d =>
      match dict_lookup k d with
      | Some x => Ok x
      | None => Raise (Exn KeyError ("'" ++ k ++ "'"))
      end
  | PList _ =>
      Raise (Exn TypeError "list indices must be integers or slices, not str")
  | PStr _ =>
      Raise (Exn TypeError "string indices must be integers, not 'str'")
  | _ =>
      Raise (Exn TypeError ("'" ++ type_name v ++ "' object is not subscriptable"))
  end.

(** [v.get(k, default)] *)
Definition py_get (v : pyval) (k : string) (default : pyval) : result pyval :=
  match v with
  | PDict d =>
      match dict_lookup k d with
      | Some x => Ok x
      | None => Ok default
      end
  | _ =>
      Raise (Exn AttributeError
               ("'" ++ type_name v ++ "' object has no attribute 'get'"))
  end.

Fixpoint str_chars (s : string) : list pyval :=
  match s with
  | EmptyString => []
  | String c s' => PStr (String c EmptyString) :: str_chars s'
  end.

(** The items [for x in v] visits, or the [TypeError] it raises. *)
Definition py_iter (v : pyval) : result (list pyval) :=
  match v with
  | PList l => Ok l
  | PStr s => Ok (str_chars s)
  | PDict d => Ok (map (fun kv => PStr (fst kv)) d)
  | _ => Raise (Exn TypeError ("'" ++ type_name v ++ "' object is not iterable"))
  end.

(** [len(b)] for a bytes object or a list. *)
Definition py_len {A} (l : list A) : Z := Z.of_nat (length l).

(** ** Collaborators

    The handler calls three libraries it does not implement.  Each is an
    interface here; what the properties need of them is stated where it is
    used. *)

(** Pillow's [Image] module as [strip_exif_metadata] uses it:
    [Image.open(BytesIO(b))], [image.mode], [image.convert(mode)], and
    [image.save(buf, format=, quality=, exif=)] followed by
    [buf.getvalue()].  [image.load()], which reads the pixel data, the
    attributes [image.size] and [image.format] and the metadata entries of
    [image.info] (EXIF block, comment, ...) are there for the properties
    to speak about; the handler does not use them. *)
Record PIL_Image : Type := {
  Image : Type;
  Image_open : list byte -> result Image;
  Image_load : Image -> result unit;
  Image_mode : Image -> string;
  Image_size : Image -> Z * Z;
  Image_format : Image -> string;
  Image_info : Image -> list (string * list byte);
  Image_convert : Image -> string -> result Image;
  Image_save : Image -> string -> Z -> list byte -> result (list byte)
}.

(** What [s3_client.get_object] returns: [response["Body"].read()] and the
    optional [response["ContentType"]]. *)
Record s3_response : Type := {
  Body_read : result (list byte);
  ContentType : option string
}.

(** The boto3 S3 client over a store of type [W]:
    [get_object(Bucket=, Key=)] and
    [put_object(Bucket=, Key=, Body=, ContentType=)]. *)
Record S3Client (W : Type) : Type := {
  get_object : W -> pyval -> pyval -> W * result s3_response;
  put_object : W -> pyval -> pyval -> list byte -> string -> W * result unit
}.
Arguments get_object {W} _ _ _ _.
Arguments put_object {W} _ _ _ _ _ _.

(** ** The handler

    Of the calls to [logger] the first one, on line 52, is kept for its
    argument: [json.dumps(event)] is evaluated before the call, outside any
    [try], and can raise (a value nested too deep, an integer too long to
    print).  The calls inside the loop are left out: they format values of
    an event that line 52 has printed already and write to the log only, so
    neither [results] nor the store depends on them. *)

Section Handler.

Context {W : Type}.
Variable s3_client : S3Client W.
(** [from PIL import Image]: the module, or the exception the import raises. *)
Variable import_PIL : result PIL_Image.
(** [os.environ["OUTPUT_BUCKET"]], read once at start-up. *)
Variable OUTPUT_BUCKET : string.
(** [json.dumps]: the text, or the exception it raises. *)
Variable json_dumps : pyval -> result string.

(** The body of the [try] in [strip_exif_metadata]. *)
Definition strip_exif_try (image_data : list byte) : result (list byte) :=
  (PIL <- import_PIL ;;
   image <- Image_open PIL image_data ;;
   image <- (if String.eqb (Image_mode PIL image) "RGB"
             then Ok image
             else Image_convert PIL image "RGB") ;;
   Image_save PIL image "JPEG" 95 [])%result.

(** What line 151 raises. *)
Definition pillow_unavailable : exn :=
  Exn RuntimeError "Image processing library not available".

(** [strip_exif_metadata]: an [ImportError] becomes a [RuntimeError], any
    other exception is raised again unchanged. *)
Definition strip_exif_metadata (image_data : list byte) : result (list byte) :=
  match strip_exif_try image_data with
  | Ok out => Ok out
  | Raise e =>
      if is_ImportError e
      then Raise pillow_unavailable
      else Raise e
  end.

(** The variables [lambda_handler] updates: the store behind the client,
    the [results] list and the local [object_key]. *)
Record frame : Type := {
  fr_world : W;
  fr_results : list pyval;
  fr_object_key : pyval
}.

(** Statements that read and update the frame and may raise.  An
    exception keeps the updates made before it. *)
Definition M (A : Type) : Type := frame -> frame * result A.

Definition mbind {A B} (c : M A) (k : A -> M B) : M B :=
  fun fr =>
    match c fr with
    | (fr', Ok a) => k a fr'
    | (fr', Raise e) => (fr', Raise e)
    end.

Definition lift {A} (r : result A) : M A := fun fr => (fr, r).

Definition set_object_key (v : pyval) : M unit :=
  fun fr => ({| fr_world := fr_world fr; fr_results := fr_results fr;
                fr_object_key := v |}, Ok tt).

Definition results_append (d : pyval) : M unit :=
  fun fr => ({| fr_world := fr_world fr; fr_results := fr_results fr ++ [d];
                fr_object_key := fr_object_key fr |}, Ok tt).

Definition with_world {A} (call : W -> W * result A) : M A :=
  fun fr =>
    let '(w, r) := call (fr_world fr) in
    ({| fr_world := w; fr_results := fr_results fr;
        fr_object_key := fr_object_key fr |}, r).

Declare Scope py_scope.
Delimit Scope py_scope with py.
Notation "x <- c ;; k" := (mbind c (fun x => k))
  (at level 100, c at next level, right associativity) : py_scope.
Notation "c ;;; k" := (mbind c (fun _ => k))
  (at level 100, k at level 200, right associativity) : py_scope.

Definition success_outcome (object_key output_key : pyval)
    (image_data sanitized_image : list byte) : pyval :=
  PDict [("status", PStr "success");
         ("input_key", object_key);
         ("output_key", output_key);
         ("input_size", PInt (py_len image_data));
         ("output_size", PInt (py_len sanitized_image))].

Definition error_outcome (object_key : pyval) (e : exn) : pyval :=
  PDict [("status", PStr "error");
         ("input_key", object_key);
         ("error", PStr (exn_str e))].

(** The right-hand sides of lines 60 and 61. *)
Definition bucket_name_of (record : pyval) : result pyval :=
  (s3 <- getitem record "s3" ;;
   bucket <- getitem s3 "bucket" ;;
   getitem bucket "name")%result.

Definition object_key_of (record : pyval) : result pyval :=
  (s3 <- getitem record "s3" ;;
   object <- getitem s3 "object" ;;
   getitem object "key")%result.

(** The body of the [try] in the loop (lines 59 to 99). *)
Definition try_body (record : pyval) : M unit :=
  (bucket_name <- lift (bucket_name_of record) ;;
   key <- lift (object_key_of record) ;;
   set_object_key key ;;;
   response <- with_world (fun w => get_object s3_client w bucket_name key) ;;
   image_data <- lift (Body_read response) ;;
   sanitized_image <- lift (strip_exif_metadata image_data) ;;
   let output_key := key in
   with_world (fun w =>
     put_object s3_client w (PStr OUTPUT_BUCKET) output_key sanitized_image
       (default "image/jpeg" (ContentType response))) ;;;
   results_append (success_outcome key output_key image_data sanitized_image))%py.

(** One iteration of the [for] loop: [object_key = ""], the [try], and the
    [except Exception] clause. *)
Definition loop_body (fr : frame) (record : pyval) : frame :=
  let fr0 := {| fr_world := fr_world fr; fr_results := fr_results fr;
                fr_object_key := PStr "" |} in
  match try_body record fr0 with
  | (fr1, Ok _) => fr1
  | (fr1, Raise e) =>
      fst (results_append (error_outcome (fr_object_key fr1) e) fr1)
  end.

(** The [return] statement (lines 107 to 110) for a list of results. *)
Definition response_of (results : list pyval) : result pyval :=
  (body <- json_dumps (PDict [("processed", PInt (py_len results));
                              ("results", PList results)]) ;;
   Ok (PDict [("statusCode", PInt 200); ("body", PStr body)]))%result.

(** The frame at the start of the loop.  [object_key] is assigned at the
    top of every iteration, before any read. *)
Definition init_frame (w : W) : frame :=
  {| fr_world := w; fr_results := []; fr_object_key := PStr "" |}.

(** The [for] loop over the records. *)
Definition process_records (w : W) (records : list pyval) : frame :=
  fold_left loop_body records (init_frame w).

(** What the loop iterates over: [event.get("Records", [])]. *)
Definition event_records (event : pyval) : result (list pyval) :=
  (recs <- py_get event "Records" (PList []) ;; py_iter recs)%result.

(** [lambda_handler(event, context)] started on store [w]: the store it
    leaves and what it returns or raises. *)
Definition lambda_handler (w : W) (event : pyval) : W * result pyval :=
  match json_dumps event with
  | Raise e => (w, Raise e)
  | Ok _ =>
      match event_records event with
      | Raise e => (w, Raise e)
      | Ok records =>
          let fr := process_records w records in
          (fr_world fr, response_of (fr_results fr))
      end
  end.

(** *** What one iteration does

    Both fields a notification must carry, read in the order of lines 60
    and 61. *)
Definition extract (record : pyval) : result (pyval * pyval) :=
  (bucket_name <- bucket_name_of record ;;
   key <- object_key_of record ;;
   Ok (bucket_name, key))%result.

(** The value [object_key] holds when an iteration ends. *)
Definition key_after (record : pyval) : pyval :=
  match extract record with
  | Ok (_, key) => key
  | Raise _ => PStr ""
  end.

(** [item_error w record w' key e]: processing [record] on store [w]
    fails with exception [e], leaving store [w'], when [object_key] holds
    [key].  One constructor per place the [try] can raise: the notification
    is malformed, the download fails, reading the body fails, sanitising
    fails, the upload fails. *)
Inductive item_error (w : W) (record : pyval) : W -> pyval -> exn -> Prop :=
| err_malformed e :
    extract record = Raise e ->
    item_error w record w (PStr "") e
| err_fetch bucket key w1 e :
    extract record = Ok (bucket, key) ->
    get_object s3_client w bucket key = (w1, Raise e) ->
    item_error w record w1 key e
| err_read bucket key w1 response e :
    extract record = Ok (bucket, key) ->
    get_object s3_client w bucket key = (w1, Ok response) ->
    Body_read response = Raise e ->
    item_error w record w1 key e
| err_sanitize bucket key w1 response image_data e :
    extract record = Ok (bucket, key) ->
    get_object s3_client w bucket key = (w1, Ok response) ->
    Body_read response = Ok image_data ->
    strip_exif_metadata image_data = Raise e ->
    item_error w record w1 key e
| err_write bucket key w1 response image_data sanitized w2 e :
    extract record = Ok (bucket, key) ->
    get_object s3_client w bucket key = (w1, Ok response) ->
    Body_read response = Ok image_data ->
    strip_exif_metadata image_data = Ok sanitized ->
    put_object s3_client w1 (PStr OUTPUT_BUCKET) key sanitized
      (default "image/jpeg" (ContentType response)) = (w2, Raise e) ->
    item_error w record w2 key e.

(** [item_run w record w' d]: processing [record] on store [w] leaves store
    [w'] and appends the outcome [d]. *)
Inductive item_run (w : W) (record : pyval) : W -> pyval -> Prop :=
| run_failure w' key e :
    item_error w record w' key e ->
    item_run w record w' (error_outcome key e)
| run_success bucket key w1 response image_data sanitized w2 :
    extract record = Ok (bucket, key) ->
    get_object s3_client w bucket key = (w1, Ok response) ->
    Body_read response = Ok image_data ->
    strip_exif_metadata image_data = Ok sanitized ->
    put_object s3_client w1 (PStr OUTPUT_BUCKET) key sanitized
      (default "image/jpeg" (ContentType response)) = (w2, Ok tt) ->
    item_run w record w2 (success_outcome key key image_data sanitized).

(** The store the loop has reached when it starts on record number [i]. *)
Definition world_before (w : W) (records : list pyval) (i : nat) : W :=
  fr_world (process_records w (take i records)).

End Handler.

(** [d["status"]] of an outcome. *)
Definition status_of (d : pyval) : option pyval :=
  match d with
  | PDict kvs => dict_lookup "status" kvs
  | _ => None
  end.

(** The values [for record in v] accepts. *)
Definition iterable (v : pyval) : bool :=
  match v with
  | PList _ | PStr _ | PDict _ => true
  | _ => false
  end.

(** ** What the properties assume of Pillow

    Three facts about Pillow's codecs, each about one operation.  What
    [convert("RGB")] returns is an image in mode RGB, of the size of the
    image it converted, whose pixel data are in memory.  The JPEG encoder,
    called as line 144 calls it, accepts an RGB image whose pixel data load
    and whose sides are between 1 and 65500 pixels, the limit of the
    encoder.  A file the JPEG encoder wrote that way for an RGB image
    opens again as a JPEG image in mode RGB, of the same size, that loads
    and has no EXIF block. *)

Definition jpeg_sized (size : Z * Z) : Prop :=
  1 <= fst size <= 65500 /\ 1 <= snd size <= 65500.

(** [info.get(key)] on the metadata entries of an image. *)
Fixpoint info_lookup (key : string) (info : list (string * list byte))
    : option (list byte) :=
  match info with
  | [] => None
  | (k, v) :: info' => if String.eqb key k then Some v else info_lookup key info'
  end.

Record Pillow_codec (P : PIL_Image) : Prop := {
  convert_RGB : forall i i',
    Image_convert P i "RGB" = Ok i' ->
    Image_load P i' = Ok tt
    /\ Image_mode P i' = "RGB"
    /\ Image_size P i' = Image_size P i;
  save_JPEG : forall i,
    Image_load P i = Ok tt ->
    Image_mode P i = "RGB" ->
    jpeg_sized (Image_size P i) ->
    exists out, Image_save P i "JPEG" 95 [] = Ok out;
  open_JPEG : forall i out,
    Image_mode P i = "RGB" ->
    Image_save P i "JPEG" 95 [] = Ok out ->
    exists j, Image_open P out = Ok j
              /\ Image_load P j = Ok tt
              /\ Image_mode P j = "RGB"
              /\ Image_size P j = Image_size P i
              /\ Image_format P j = "JPEG"
              /\ info_lookup "exif" (Image_info P j) = None
}.

(** [as_RGB P i i']: Pillow brings the opened image [i] to RGB, and [i']
    is the image lines 139 and 140 leave in [image]: [i] itself when its
    mode is RGB and its pixel data load, what [convert] returns for it
    otherwise. *)
Definition as_RGB (P : PIL_Image) (i i' : Image P) : Prop :=
  Image_mode P i = "RGB" /\ Image_load P i = Ok tt /\ i' = i
  \/ Image_mode P i <> "RGB" /\ Image_convert P i "RGB" = Ok i'.

(** ** Test doubles

    [tests/test_handler.py] replaces the S3 client by mocks and runs the
    real Pillow.  The doubles below play both parts, so that the handler
    can be run on concrete events. *)

(** *** An in-memory S3 *)

Record s3_object : Type := {
  obj_body : list byte;
  obj_content_type : option string
}.

Record mem_store : Type := {
  buckets : gset string;
  objects : gmap (string * string) s3_object
}.

Definition NoSuchBucket : exn :=
  Exn ClientError "An error occurred (NoSuchBucket): The specified bucket does not exist".
Definition NoSuchKey : exn :=
  Exn ClientError "An error occurred (NoSuchKey): The specified key does not exist.".
Definition InvalidParameter : exn :=
  Exn ParamValidationError "Parameter validation failed: invalid type for parameter".

Definition mem_get_object (w : mem_store) (bucket key : pyval)
    : mem_store * result s3_response :=
  match bucket, key with
  | PStr b, PStr k =>
      if decide (b ∈ buckets w) then
        match objects w !! (b, k) with
        | Some o => (w, Ok {| Body_read := Ok (obj_body o);
                              ContentType := obj_content_type o |})
        | None => (w, Raise NoSuchKey)
        end
      else (w, Raise NoSuchBucket)
  | _, _ => (w, Raise InvalidParameter)
  end.

Definition mem_put_object (w : mem_store) (bucket key : pyval)
    (body : list byte) (content_type : string) : mem_store * result unit :=
  match bucket, key with
  | PStr b, PStr k =>
      if decide (b ∈ buckets w) then
        ({| buckets := buckets w;
            objects := <[(b, k) := {| obj_body := body;
                                      obj_content_type := Some content_type |}]>
                         (objects w) |}, Ok tt)
      else (w, Raise NoSuchBucket)
  | _, _ => (w, Raise InvalidParameter)
  end.

Definition mem_s3 : S3Client mem_store :=
  {| get_object := mem_get_object; put_object := mem_put_object |}.

(** *** A small image codec

    A file is an eight-byte header (container tag [P] or [J], mode, width
    and height on two bytes each, length of the EXIF block, length of the
    comment) followed by the EXIF block, the comment and the pixels, one
    byte per channel.  As in Pillow, opening reads the header only and the
    pixels are checked when they are first needed; the JPEG encoder refuses
    an empty image and a side over 65500 pixels; [save] writes the EXIF
    block it is given and the comment the image carries. *)

Inductive toy_mode : Set := ModeRGB | ModeRGBA | ModeL.

Definition toy_mode_name (m : toy_mode) : string :=
  match m with ModeRGB => "RGB" | ModeRGBA => "RGBA" | ModeL => "L" end.

Definition toy_channels (m : toy_mode) : nat :=
  match m with ModeRGB => 3 | ModeRGBA => 4 | ModeL => 1 end%nat.

Record toy_image : Type := {
  t_format : string;
  t_mode : toy_mode;
  t_width : byte * byte;
  t_height : byte * byte;
  t_exif : list byte;
  t_comment : list byte;
  t_pixels : list byte
}.

(** The number a pair of bytes stands for, high byte first. *)
Definition be16 (p : byte * byte) : nat :=
  (256 * Byte.to_nat (fst p) + Byte.to_nat (snd p))%nat.

Definition toy_size (i : toy_image) : Z * Z :=
  (Z.of_nat (be16 (t_width i)), Z.of_nat (be16 (t_height i))).

Definition toy_loaded (i : toy_image) : bool :=
  Nat.eqb (length (t_pixels i))
    (be16 (t_width i) * be16 (t_height i) * toy_channels (t_mode i)).

Definition cannot_identify : exn :=
  Exn UnidentifiedImageError "cannot identify image file".
Definition truncated : exn := Exn OSError "image file is truncated".
Definition empty_image : exn :=
  Exn ValueError "cannot write empty image as JPEG".
Definition too_large : exn :=
  Exn OSError "encoder error -2 when writing image file".

Definition toy_open (b : list byte) : result toy_image :=
  match b with
  | tag :: m :: wh :: wl :: hh :: hl :: n :: c :: rest =>
      match (match tag with x50 => Some "PNG" | x4a => Some "JPEG" | _ => None end),
            (match m with
             | x00 => Some ModeRGB | x01 => Some ModeRGBA | x02 => Some ModeL
             | _ => None end) with
      | Some f, Some md =>
          if (Byte.to_nat n + Byte.to_nat c <=? length rest)%nat
          then Ok {| t_format := f; t_mode := md;
                     t_width := (wh, wl); t_height := (hh, hl);
                     t_exif := take (Byte.to_nat n) rest;
                     t_comment := take (Byte.to_nat c) (drop (Byte.to_nat n) rest);
                     t_pixels := drop (Byte.to_nat n + Byte.to_nat c) rest |}
          else Raise cannot_identify
      | _, _ => Raise cannot_identify
      end
  | _ => Raise cannot_identify
  end.

Definition toy_load (i : toy_image) : result unit :=
  if toy_loaded i then Ok tt else Raise truncated.

Fixpoint drop_alpha (px : list byte) : list byte :=
  match px with
  | r :: g :: b :: _ :: rest => r :: g :: b :: drop_alpha rest
  | _ => []
  end.

Definition toy_rgb_pixels (i : toy_image) : list byte :=
  match t_mode i with
  | ModeRGB => t_pixels i
  | ModeRGBA => drop_alpha (t_pixels i)
  | ModeL => flat_map (fun x => [x; x; x]) (t_pixels i)
  end.

Definition toy_convert (i : toy_image) (mode : string) : result toy_image :=
  if String.eqb mode "RGB" then
    if toy_loaded i then
      Ok {| t_format := ""; t_mode := ModeRGB;
            t_width := t_width i; t_height := t_height i;
            t_exif := t_exif i; t_comment := t_comment i;
            t_pixels := toy_rgb_pixels i |}
    else Raise truncated
  else Raise (Exn ValueError "conversion not supported").

Definition toy_save (i : toy_image) (format : string) (quality : Z)
    (exif : list byte) : result (list byte) :=
  if String.eqb format "JPEG" then
    if toy_loaded i then
      match t_mode i with
      | ModeRGB =>
          if Z.eqb (fst (toy_size i)) 0 || Z.eqb (snd (toy_size i)) 0
          then Raise empty_image
          else if Z.ltb 65500 (fst (toy_size i)) || Z.ltb 65500 (snd (toy_size i))
          then Raise too_large
          else
            match Byte.of_nat (length exif),
                  Byte.of_nat (length (take 255 (t_comment i))) with
            | Some n, Some c =>
                Ok (x4a :: x00 :: fst (t_width i) :: snd (t_width i)
                      :: fst (t_height i) :: snd (t_height i) :: n :: c
                      :: exif ++ take 255 (t_comment i) ++ t_pixels i)
            | _, _ => Raise (Exn ValueError "EXIF data is too long")
            end
      | m => Raise (Exn OSError
                      ("cannot write mode " ++ toy_mode_name m ++ " as JPEG"))
      end
    else Raise truncated
  else Raise (Exn KeyError ("'" ++ format ++ "'")).

Definition toy_info (i : toy_image) : list (string * list byte) :=
  match t_exif i with
  | [] => []
  | ex => [("exif", ex)]
  end
  ++ match t_comment i with
     | [] => []
     | c => [("comment", c)]
     end.

Definition toy_PIL : PIL_Image :=
  {| Image := toy_image;
     Image_open := toy_open;
     Image_load := toy_load;
     Image_mode := fun i => toy_mode_name (t_mode i);
     Image_size := toy_size;
     Image_format := t_format;
     Image_info := toy_info;
     Image_convert := toy_convert;
     Image_save := toy_save |}.

(** *** A JSON printer

    [json.dumps] with its default separators, for the values the examples
    use: no control or non-ASCII character in a string; a float is shown as
    mantissa and exponent. *)

Definition dquote : string := String (Ascii.ascii_of_nat 34) EmptyString.

Fixpoint json_escape (s : string) : string :=
  match s with
  | EmptyString => EmptyString
  | String c s' =>
      (if Ascii.eqb c (Ascii.ascii_of_nat 34) then "\" ++ dquote
       else if Ascii.eqb c (Ascii.ascii_of_nat 92) then "\\"
       else String c EmptyString) ++ json_escape s'
  end.

Fixpoint simple_json_dumps (v : pyval) : string :=
  match v with
  | PNone => "null"
  | PBool true => "true"
  | PBool false => "false"
  | PInt n => pretty n
  | PFloat m e => pretty m ++ "*2**" ++ pretty e
  | PStr s => dquote ++ json_escape s ++ dquote
  | PList l => "[" ++ String.concat ", " (map simple_json_dumps l) ++ "]"
  | PDict d =>
      "{" ++ String.concat ", "
               (map (fun kv => (dquote ++ json_escape (fst kv) ++ dquote ++ ": "
                                  ++ simple_json_dumps (snd kv))%string) d) ++ "}"
  end.

(** How deep the lists and dicts of a value are nested. *)
Fixpoint json_depth (v : pyval) : nat :=
  match v with
  | PList l => S (fold_right (fun x d => Nat.max (json_depth x) d) 0%nat l)
  | PDict kvs =>
      S (fold_right (fun kv d => Nat.max (json_depth (snd kv)) d) 0%nat kvs)
  | _ => 0%nat
  end.

Definition too_deep : exn :=
  Exn RecursionError
    "maximum recursion depth exceeded while encoding a JSON object".

(** A [json.dumps] that gives up on a value nested more than 1000 deep,
    as CPython's does under its default recursion limit. *)
Definition test_json_dumps (v : pyval) : result string :=
  if Z.ltb 1000 (Z.of_nat (json_depth v)) then Raise too_deep
  else Ok (simple_json_dumps v).

(** *** The handler on the doubles *)

Definition test_output_bucket : string := "test-output-bucket".

Definition test_handler (w : mem_store) (event : pyval)
    : mem_store * result pyval :=
  lambda_handler mem_s3 (Ok toy_PIL) test_output_bucket test_json_dumps w event.

(** An S3 notification record for [bucket] and [key]. *)
Definition s3_record (bucket key : string) : pyval :=
  PDict [("s3", PDict [("bucket", PDict [("name", PStr bucket)]);
                       ("object", PDict [("key", PStr key)])])].

(** A 2x1 RGBA image in the lossless container, with a two-byte EXIF block. *)
Definition rgba_file : list byte :=
  [x50; x01; x00; x02; x00; x01; x02; x00; xaa; xbb;
   x10; x20; x30; x80; x40; x50; x60; xff].

(** A 1x1 RGB image in the JPEG container, without EXIF. *)
Definition rgb_file : list byte :=
  [x4a; x00; x00; x01; x00; x01; x00; x00; x07; x08; x09].

(** A 2x1 RGBA image whose file stops after the first three pixel bytes. *)
Definition truncated_file : list byte :=
  [x50; x01; x00; x02; x00; x01; x00; x00; x10; x20; x30].

(** A 1x1 RGB image in the JPEG container with a one-byte EXIF block and
    the comment "hi". *)
Definition commented_file : list byte :=
  [x4a; x00; x00; x01; x00; x01; x01; x02; xee; x68; x69; x07; x08; x09].

(** A greyscale image 65501 pixels wide and 1 high, and one 1 wide and
    65501 high, both complete, in the lossless container. *)
Definition wide_file : list byte :=
  [x50; x02; xff; xdd; x00; x01; x00; x00] ++ replicate (Z.to_nat 65501) x00.

Definition wide_image : toy_image :=
  {| t_format := "PNG"; t_mode := ModeL;
     t_width := (xff, xdd); t_height := (x00, x01);
     t_exif := []; t_comment := [];
     t_pixels := replicate (Z.to_nat 65501) x00 |}.

Definition tall_file : list byte :=
  [x50; x02; x00; x01; xff; xdd; x00; x00] ++ replicate (Z.to_nat 65501) x00.

Definition tall_image : toy_image :=
  {| t_format := "PNG"; t_mode := ModeL;
     t_width := (x00, x01); t_height := (xff, xdd);
     t_exif := []; t_comment := [];
     t_pixels := replicate (Z.to_nat 65501) x00 |}.

(** A notification for [photo.png] that carries, beside the fields the
    handler reads, a list nested 1001 deep. *)
Definition deep_record : pyval :=
  PDict [("s3", PDict [("bucket", PDict [("name", PStr "test-input-bucket")]);
                       ("object", PDict [("key", PStr "photo.png")])]);
         ("padding", Nat.iter 1001 (fun v => PList [v]) PNone)].

Definition deep_event : pyval := PDict [("Records", PList [deep_record])].

(** "not an image", as in [test_raises_error_on_invalid_image]. *)
Definition not_an_image : list byte :=
  [x6e; x6f; x74; x20; x61; x6e; x20; x69; x6d; x61; x67; x65].

Definition test_store : mem_store :=
  {| buckets := {[ "test-input-bucket"; "test-output-bucket" ]};
     objects :=
       {[ ("test-input-bucket", "photo.png") :=
            {| obj_body := rgba_file; obj_content_type := Some "image/png" |};
          ("test-input-bucket", "plain.jpg") :=
            {| obj_body := rgb_file; obj_content_type := None |};
          ("test-input-bucket", "notes.txt") :=
            {| obj_body := not_an_image; obj_content_type := Some "text/plain" |} ]} |}.

(** The batch the examples run: a PNG with an alpha channel and an EXIF
    block, a missing object, a record that is not a notification, a text
    file, and a JPEG whose download response has no content type. *)
Definition sample_records : list pyval :=
  [s3_record "test-input-bucket" "photo.png";
   s3_record "test-input-bucket" "missing.jpg";
   PInt 3;
   s3_record "test-input-bucket" "notes.txt";
   s3_record "test-input-bucket" "plain.jpg"].

Definition sample_event : pyval := PDict [("Records", PList sample_records)].

(** [rgba_file] once opened. *)
Definition rgba_image : toy_image :=
  {| t_format := "PNG"; t_mode := ModeRGBA;
     t_width := (x00, x02); t_height := (x00, x01);
     t_exif := [xaa; xbb]; t_comment := [];
     t_pixels := [x10; x20; x30; x80; x40; x50; x60; xff] |}.

(** What [convert("RGB")] makes of it. *)
Definition rgba_converted : toy_image :=
  {| t_format := ""; t_mode := ModeRGB;
     t_width := (x00, x02); t_height := (x00, x01);
     t_exif := [xaa; xbb]; t_comment := [];
     t_pixels := [x10; x20; x30; x40; x50; x60] |}.

(** What is uploaded for [rgba_file]. *)
Definition rgba_sanitized : list byte :=
  [x4a; x00; x00; x02; x00; x01; x00; x00; x10; x20; x30; x40; x50; x60].

(** What [strip_exif_metadata] returns for [commented_file]: the EXIF
    block is gone, the comment is still there. *)
Definition commented_sanitized : list byte :=
  [x4a; x00; x00; x01; x00; x01; x00; x02; x68; x69; x07; x08; x09].

(** ** Vocabulary for the further properties *)

(** [d["input_key"]] of an outcome. *)
Definition input_key_of (d : pyval) : option pyval :=
  match d with
  | PDict kvs => dict_lookup "input_key" kvs
  | _ => None
  end.

Definition is_Ok {A} (r : result A) : bool :=
  match r with Ok _ => true | Raise _ => false end.

(** [d["status"] == "success"] *)
Definition is_success (d : pyval) : bool :=
  match status_of d with
  | Some (PStr s) => String.eqb s "success"
  | _ => false
  end.

(** The event that carries the list [records]. *)
Definition batch_event (records : list pyval) : pyval :=
  PDict [("Records", PList records)].

(** The first of the fields [s3], [bucket], [name], [object], [key] that a
    record made of dicts lacks, in the order lines 60 and 61 read them. *)
Definition missing_field (record : pyval) : option string :=
  match record with
  | PDict d =>
      match dict_lookup "s3" d with
      | None => Some "s3"
      | Some (PDict s) =>
          match dict_lookup "bucket" s with
          | None => Some "bucket"
          | Some (PDict b) =>
              match dict_lookup "name" b with
              | None => Some "name"
              | Some _ =>
                  match dict_lookup "object" s with
                  | None => Some "object"
                  | Some (PDict o) =>
                      match dict_lookup "key" o with
                      | None => Some "key"
                      | Some _ => None
                      end
                  | Some _ => None
                  end
              end
          | Some _ => None
          end
      | Some _ => None
      end
  | _ => None
  end.

(** What subscripting a string with a string raises; every item of a
    [Records] that is a string or a dict ends there. *)
Definition string_index_error : exn :=
  Exn TypeError "string indices must be integers, not 'str'".

(** *** The calls made on the S3 client

    A client that keeps a log of the calls it receives, as the mocks of
    [tests/test_handler.py] do, in front of any client. *)
Inductive s3_call : Type :=
| GetObject (bucket key : pyval)
| PutObject (bucket key : pyval) (body : list byte) (content_type : string).

Definition is_get (c : s3_call) : bool :=
  match c with GetObject _ _ => true | PutObject _ _ _ _ => false end.

Definition is_put (c : s3_call) : bool :=
  match c with GetObject _ _ => false | PutObject _ _ _ _ => true end.

Definition count_calls (p : s3_call -> bool) (l : list s3_call) : nat :=
  length (List.filter p l).

Definition recording {W : Type} (c : S3Client W) : S3Client (W * list s3_call) :=
  {| get_object := fun wl bucket key =>
       let '(w', r) := get_object c (fst wl) bucket key in
       ((w', snd wl ++ [GetObject bucket key]), r);
     put_object := fun wl bucket key body content_type =>
       let '(w', r) := put_object c (fst wl) bucket key body content_type in
       ((w', snd wl ++ [PutObject bucket key body content_type]), r) |}.

Section Calls.

Context {W : Type}.
Variable s3_client : S3Client W.
Variable import_PIL : result PIL_Image.
Variable OUTPUT_BUCKET : string.

(** The calls one iteration makes on store [w]: none when the notification
    is malformed, the download, and the upload once the image has been
    sanitised. *)
Definition item_calls (w : W) (record : pyval) : list s3_call :=
  match extract record with
  | Raise _ => []
  | Ok (bucket, key) =>
      GetObject bucket key ::
      match get_object s3_client w bucket key with
      | (_, Ok response) =>
          match (image_data <- Body_read response ;;
                 strip_exif_metadata import_PIL image_data)%result with
          | Ok sanitized =>
              [PutObject (PStr OUTPUT_BUCKET) key sanitized
                 (default "image/jpeg" (ContentType response))]
          | Raise _ => []
          end
      | (_, Raise _) => []
      end
  end.

(** The calls of a whole batch, record after record. *)
Fixpoint batch_calls (w : W) (records : list pyval) : list s3_call :=
  match records with
  | [] => []
  | record :: records' =>
      item_calls w record
        ++ batch_calls
             (fr_world (loop_body s3_client import_PIL OUTPUT_BUCKET
                          (init_frame w) record))
             records'
  end.

(** A record that does not download from the output bucket. *)
Definition reads_elsewhere (record : pyval) : Prop :=
  forall bucket key,
    extract record = Ok (bucket, key) -> bucket <> PStr OUTPUT_BUCKET.

(** What the isolation of the records assumes of S3.  [same_inputs w w']
    says that the stores [w] and [w'] differ in the output bucket at most:
    downloads from the other buckets give the same response on both, and
    an upload to the output bucket has the same result on both; neither a
    download nor an upload to the output bucket leaves the class of a
    store. *)
Record S3_separated (same_inputs : W -> W -> Prop) : Prop := {
  same_inputs_equiv : Equivalence same_inputs;
  get_keeps : forall w bucket key,
    same_inputs w (fst (get_object s3_client w bucket key));
  get_respects : forall w w' bucket key,
    same_inputs w w' ->
    bucket <> PStr OUTPUT_BUCKET ->
    snd (get_object s3_client w bucket key)
      = snd (get_object s3_client w' bucket key);
  put_keeps : forall w key body content_type,
    same_inputs w
      (fst (put_object s3_client w (PStr OUTPUT_BUCKET) key body content_type));
  put_respects : forall w w' key body content_type,
    same_inputs w w' ->
    snd (put_object s3_client w (PStr OUTPUT_BUCKET) key body content_type)
      = snd (put_object s3_client w' (PStr OUTPUT_BUCKET) key body content_type)
}.

End Calls.

(** *** More doubles *)

(** Two in-memory stores with the same buckets and the same objects
    outside [bucket]. *)
Definition mem_same_inputs (bucket : string) (w w' : mem_store) : Prop :=
  buckets w = buckets w'
  /\ forall b k, b <> bucket -> objects w !! (b, k) = objects w' !! (b, k).

(** A Pillow whose JPEG encoder cannot be loaded: [save] raises an
    [ImportError]. *)
Definition no_encoder_error : exn :=
  Exn ImportError "cannot import name '_imaging' from 'PIL'".

Definition toy_PIL_no_encoder : PIL_Image :=
  {| Image := toy_image;
     Image_open := toy_open;
     Image_load := toy_load;
     Image_mode := fun i => toy_mode_name (t_mode i);
     Image_size := toy_size;
     Image_format := t_format;
     Image_info := toy_info;
     Image_convert := toy_convert;
     Image_save := fun _ _ _ _ => Raise no_encoder_error |}.

(** A record that names an object key and no bucket. *)
Definition orphan_key_record : pyval :=
  PDict [("s3", PDict [("object", PDict [("key", PStr "orphan.jpg")])])].

(** A store whose only bucket is both input and output. *)
Definition shared_bucket_store : mem_store :=
  {| buckets := {[ "shared" ]};
     objects := {[ ("shared", "photo.png") :=
                     {| obj_body := rgba_file;
                        obj_content_type := Some "image/png" |} ]} |}.

(** ** Facts about the handler *)

Section HandlerFacts.

Context {W : Type}.
Variable s3_client : S3Client W.
Variable import_PIL : result PIL_Image.
Variable OUTPUT_BUCKET : string.
Variable json_dumps : pyval -> result string.

Local Abbreviation strip := (strip_exif_metadata import_PIL).
Local Abbreviation loop := (loop_body s3_client import_PIL OUTPUT_BUCKET).
Local Abbreviation failure := (item_error s3_client import_PIL OUTPUT_BUCKET).
Local Abbreviation run := (item_run s3_client import_PIL OUTPUT_BUCKET).
Local Abbreviation process := (process_records s3_client import_PIL OUTPUT_BUCKET).
Local Abbreviation before := (world_before s3_client import_PIL OUTPUT_BUCKET).
Local Abbreviation handler :=
  (lambda_handler s3_client import_PIL OUTPUT_BUCKET json_dumps).

Lemma extract_Ok record bucket key :
  extract record = Ok (bucket, key) <->
  bucket_name_of record = Ok bucket /\ object_key_of record = Ok key.
Proof.
  unfold extract, rbind.
  destruct (bucket_name_of record), (object_key_of record);
    (split; [intros ?|intros [? ?]]; by simplify_eq).
Qed.

Lemma extract_Raise record e :
  extract record = Raise e <->
  bucket_name_of record = Raise e
  \/ (exists bucket, bucket_name_of record = Ok bucket)
     /\ object_key_of record = Raise e.
Proof.
  unfold extract, rbind.
  destruct (bucket_name_of record), (object_key_of record);
    (split; [intros ?; simplify_eq; eauto
            | intros [?|[[? ?] ?]]; by simplify_eq]).
Qed.

(** A malformed notification makes the [try] raise at once, with the frame
    untouched. *)
Lemma try_body_malformed record e fr :
  extract record = Raise e ->
  try_body s3_client import_PIL OUTPUT_BUCKET record fr = (fr, Raise e).
Proof.
  intros [H|[[b Hb] H]]%extract_Raise;
    unfold try_body, mbind, lift; simpl.
  - by rewrite H.
  - by rewrite Hb, H.
Qed.

(** Runs one iteration along the equations in the context. *)
Ltac run_iteration :=
  intros ? <-;
  unfold loop_body, try_body, key_after, mbind, lift, with_world; simpl;
  repeat match goal with
         | H : _ = _ |- _ => rewrite H; clear H; simpl
         end;
  reflexivity.

(** One iteration appends exactly one outcome, the one [item_run] gives,
    whatever the frame it starts from holds in [results] and [object_key]. *)
Lemma loop_body_item_run (w : W) (record : pyval) :
  exists w' d,
    run w record w' d
    /\ forall fr, fr_world fr = w ->
         loop fr record =
         {| fr_world := w'; fr_results := fr_results fr ++ [d];
            fr_object_key := key_after record |}.
Proof.
  destruct (extract record) as [[bucket key]|e] eqn:Hex.
  - pose proof Hex as [Hb Hk]%extract_Ok.
    destruct (get_object s3_client w bucket key)
      as [w1 [response|e]] eqn:Hget.
    + destruct (Body_read response) as [image_data|e] eqn:Hread.
      * destruct (strip image_data) as [sanitized|e] eqn:Hstrip.
        -- destruct (put_object s3_client w1 (PStr OUTPUT_BUCKET) key sanitized
                       (default "image/jpeg" (ContentType response)))
             as [w2 [[]|e]] eqn:Hput.
           ++ exists w2, (success_outcome key key image_data sanitized).
              split; [by eapply run_success | run_iteration].
           ++ exists w2, (error_outcome key e).
              split; [by eapply run_failure, err_write | run_iteration].
        -- exists w1, (error_outcome key e).
           split; [by eapply run_failure, err_sanitize | run_iteration].
      * exists w1, (error_outcome key e).
        split; [by eapply run_failure, err_read | run_iteration].
    + exists w1, (error_outcome key e).
      split; [by eapply run_failure, err_fetch | run_iteration].
  - exists w, (error_outcome (PStr "") e).
    split; [by apply run_failure, err_malformed|].
    intros fr <-. unfold loop_body, key_after.
    by rewrite (try_body_malformed _ _ _ Hex), Hex.
Qed.

(** A record has one outcome only. *)
Lemma item_run_det w record w1 d1 w2 d2 :
  run w record w1 d1 -> run w record w2 d2 -> w1 = w2 /\ d1 = d2.
Proof.
  intros H1 H2.
  destruct H1 as [? ? ? []|]; destruct H2 as [? ? ? []|];
    split; congruence.
Qed.

(** The loop started on any frame: the results it adds and the store it
    leaves are those of the loop started on an empty [results]. *)
Lemma fold_loop_frame (records : list pyval) (fr : frame) :
  fr_world (fold_left loop records fr)
    = fr_world (process (fr_world fr) records)
  /\ fr_results (fold_left loop records fr)
     = fr_results fr ++ fr_results (process (fr_world fr) records).
Proof.
  unfold process_records.
  revert fr. induction records as [|record records IH]; intros fr; simpl.
  - by rewrite app_nil_r.
  - destruct (loop_body_item_run (fr_world fr) record) as (w' & d & _ & Hloop).
    rewrite (Hloop fr eq_refl), (Hloop (init_frame (fr_world fr)) eq_refl).
    destruct (IH {| fr_world := w'; fr_results := fr_results fr ++ [d];
                    fr_object_key := key_after record |}) as [-> ->].
    destruct (IH {| fr_world := w';
                    fr_results := fr_results (init_frame (fr_world fr)) ++ [d];
                    fr_object_key := key_after record |}) as [-> ->].
    simpl. split; [done|]. by rewrite <- app_assoc.
Qed.

(** The loop over two batches in a row. *)
Lemma process_records_app (w : W) (rs1 rs2 : list pyval) :
  fr_world (process w (rs1 ++ rs2))
    = fr_world (process (fr_world (process w rs1)) rs2)
  /\ fr_results (process w (rs1 ++ rs2))
     = fr_results (process w rs1)
         ++ fr_results (process (fr_world (process w rs1)) rs2).
Proof.
  assert (process w (rs1 ++ rs2) = fold_left loop rs2 (process w rs1)) as ->
    by (unfold process_records; apply fold_left_app).
  apply fold_loop_frame.
Qed.

(** The loop over a single record. *)
Lemma process_records_one (w : W) (record : pyval) :
  exists w' d,
    run w record w' d
    /\ fr_world (process w [record]) = w'
    /\ fr_results (process w [record]) = [d].
Proof.
  destruct (loop_body_item_run w record) as (w' & d & Hrun & Hloop).
  exists w', d. split; [done|].
  unfold process_records; simpl. by rewrite (Hloop (init_frame w) eq_refl).
Qed.

(** The loop yields one outcome per record, in order: outcome number [i]
    is the outcome of record number [i] on the store the earlier records
    left. *)
Lemma process_records_spec (w : W) (records : list pyval) :
  length (fr_results (process w records)) = length records
  /\ forall i record,
       records !! i = Some record ->
       exists d, fr_results (process w records) !! i = Some d
                 /\ run (before w records i) record
                        (before w records (S i)) d.
Proof.
  induction records as [|r records [IHlen IH]] using rev_ind.
  - split; [done|]. intros i record Hi. by rewrite lookup_nil in Hi.
  - destruct (process_records_app w records [r]) as [Hw Hres].
    destruct (process_records_one (fr_world (process w records)) r)
      as (w' & d & Hrun & Hw' & Hd).
    rewrite Hd in Hres. rewrite Hw' in Hw.
    split.
    { rewrite Hres, !length_app, IHlen. done. }
    intros i record Hi. unfold world_before.
    destruct (decide (i < length records)%nat) as [Hlt|Hge].
    + rewrite lookup_app_l in Hi by done.
      destruct (IH i record Hi) as (d' & Hd' & Hrun').
      exists d'. split.
      { rewrite Hres. rewrite lookup_app_l; [done|]. by rewrite IHlen. }
      unfold world_before in Hrun'.
      rewrite !take_app_le by lia. done.
    + assert (i = length records) as ->.
      { apply lookup_lt_Some in Hi. rewrite length_app in Hi. simpl in Hi. lia. }
      rewrite list_lookup_middle in Hi by done. injection Hi as <-.
      exists d. split.
      { rewrite Hres. apply list_lookup_middle. by rewrite IHlen. }
      rewrite take_app_length.
      rewrite take_ge by (rewrite length_app; simpl; lia).
      by rewrite Hw.
Qed.

(** *** The sanitiser *)

Lemma strip_exif_try_imported P image_data :
  import_PIL = Ok P ->
  strip_exif_try import_PIL image_data =
  (image <- Image_open P image_data ;;
   image <- (if String.eqb (Image_mode P image) "RGB"
             then Ok image
             else Image_convert P image "RGB") ;;
   Image_save P image "JPEG" 95 [])%result.
Proof. intros H. unfold strip_exif_try. by rewrite H. Qed.

(** Pillow's decode errors are [OSError]s, which the [except ImportError]
    clause does not catch. *)
Lemma OSError_not_ImportError e : is_OSError e = true -> is_ImportError e = false.
Proof. unfold is_OSError, is_ImportError. by destruct (exn_class_of e). Qed.

(** Whatever the [try] raises, other than an [ImportError], reaches the
    caller unchanged. *)
Lemma strip_reraises image_data e :
  strip_exif_try import_PIL image_data = Raise e ->
  is_ImportError e = false ->
  strip image_data = Raise e.
Proof. intros Htry Hcls. unfold strip_exif_metadata. by rewrite Htry, Hcls. Qed.

(** The pixel data fail to decode when they are first needed, in
    [convert], and the error reaches the caller unchanged as well. *)
Lemma strip_truncated_error P image_data i e :
  import_PIL = Ok P ->
  Image_open P image_data = Ok i ->
  Image_mode P i <> "RGB" ->
  Image_convert P i "RGB" = Raise e ->
  is_ImportError e = false ->
  strip image_data = Raise e.
Proof.
  intros HP Hopen Hmode Hconv Hcls. apply strip_reraises; [|done].
  rewrite (strip_exif_try_imported P) by done. rewrite Hopen; simpl.
  apply String.eqb_neq in Hmode. by rewrite Hmode, Hconv.
Qed.

(** An image that Pillow brings to RGB and that fits the JPEG format
    goes through: it is saved as JPEG at quality 95 with an empty EXIF
    block, and what comes out opens again as [open_JPEG] says. *)
Lemma strip_decodable P image_data i i' :
  Pillow_codec P ->
  import_PIL = Ok P ->
  Image_open P image_data = Ok i ->
  as_RGB P i i' ->
  jpeg_sized (Image_size P i) ->
  exists out j,
    Image_save P i' "JPEG" 95 [] = Ok out
    /\ strip image_data = Ok out
    /\ Image_open P out = Ok j
    /\ Image_load P j = Ok tt
    /\ Image_mode P j = "RGB"
    /\ Image_size P j = Image_size P i
    /\ Image_format P j = "JPEG"
    /\ info_lookup "exif" (Image_info P j) = None.
Proof.
  intros [Hconvert Hsave Hopen'] HP Hopen Hrgb Hsized.
  assert ((if String.eqb (Image_mode P i) "RGB"
           then Ok i else Image_convert P i "RGB") = Ok i'
          /\ Image_load P i' = Ok tt /\ Image_mode P i' = "RGB"
          /\ Image_size P i' = Image_size P i)
    as (Hnorm & Hload' & Hmode' & Hsize').
  { destruct Hrgb as [(Hmode & Hload & ->)|(Hmode & Hconv)].
    - pose proof Hmode as ->%String.eqb_eq. done.
    - pose proof Hmode as ->%String.eqb_neq. split; [done|].
      by apply Hconvert. }
  destruct (Hsave i' Hload' Hmode') as [out Hout].
  { by rewrite Hsize'. }
  destruct (Hopen' i' out Hmode' Hout)
    as (j & Hj & Hloadj & Hmodej & Hsizej & Hfmt & Hexif).
  exists out, j. repeat split; try done.
  - unfold strip_exif_metadata.
    rewrite (strip_exif_try_imported P) by done.
    rewrite Hopen; simpl. rewrite Hnorm; simpl. by rewrite Hout.
  - by rewrite Hsizej.
Qed.

(** *** Outcomes of the loop *)

Lemma status_of_error key e :
  status_of (error_outcome key e) = Some (PStr "error").
Proof. reflexivity. Qed.

Lemma status_of_success key output_key image_data sanitized :
  status_of (success_outcome key output_key image_data sanitized)
  = Some (PStr "success").
Proof. reflexivity. Qed.

(** Outcome number [i] of the loop belongs to record number [i]. *)
Lemma outcome_of_record w records i d :
  fr_results (process w records) !! i = Some d ->
  exists record,
    records !! i = Some record
    /\ run (before w records i) record (before w records (S i)) d.
Proof.
  intros Hd.
  destruct (process_records_spec w records) as [Hlen Hspec].
  destruct (lookup_lt_is_Some_2 records i) as [record Hrecord].
  { rewrite <- Hlen. by eapply lookup_lt_Some. }
  destruct (Hspec i record Hrecord) as (d' & Hd' & Hrun).
  exists record. split; [done|]. congruence.
Qed.

(** An outcome with status [success] comes from an iteration in which
    every step succeeded. *)
Lemma success_inversion w records i d :
  fr_results (process w records) !! i = Some d ->
  status_of d = Some (PStr "success") ->
  exists record bucket key w1 response image_data sanitized,
    records !! i = Some record
    /\ extract record = Ok (bucket, key)
    /\ get_object s3_client (before w records i) bucket key = (w1, Ok response)
    /\ Body_read response = Ok image_data
    /\ strip image_data = Ok sanitized
    /\ put_object s3_client w1 (PStr OUTPUT_BUCKET) key sanitized
         (default "image/jpeg" (ContentType response))
       = (before w records (S i), Ok tt)
    /\ d = success_outcome key key image_data sanitized.
Proof.
  intros Hd Hstatus.
  destruct (outcome_of_record w records i d Hd) as (record & Hrecord & Hrun).
  destruct Hrun as [w' key e Herr|bucket key w1 response image_data sanitized w2].
  - by rewrite status_of_error in Hstatus.
  - by exists record, bucket, key, w1, response, image_data, sanitized.
Qed.

(** A record that fails without touching the store does not affect the
    records around it: they are processed as if it were not in the batch. *)
Lemma failed_item_isolated w rs1 record rs2 key e :
  failure (fr_world (process w rs1)) record (fr_world (process w rs1)) key e ->
  fr_results (process w (rs1 ++ record :: rs2))
  = fr_results (process w rs1)
      ++ error_outcome key e
      :: fr_results (process (fr_world (process w rs1)) rs2)
  /\ fr_results (process w (rs1 ++ rs2))
     = fr_results (process w rs1)
         ++ fr_results (process (fr_world (process w rs1)) rs2)
  /\ fr_world (process w (rs1 ++ record :: rs2))
     = fr_world (process w (rs1 ++ rs2)).
Proof.
  intros Hfail.
  destruct (process_records_app w rs1 (record :: rs2)) as [Hw Hres].
  destruct (process_records_app w rs1 rs2) as [Hw' Hres'].
  set (w1 := fr_world (process w rs1)) in *.
  destruct (process_records_app w1 [record] rs2) as [Hcw Hcr].
  destruct (process_records_one w1 record) as (w2 & d & Hrun & Hw2 & Hd).
  destruct (item_run_det _ _ _ _ _ _ Hrun (run_failure _ _ _ _ _ _ _ _ Hfail))
    as [-> ->].
  simpl in Hcw, Hcr. rewrite Hw2 in Hcw, Hcr. rewrite Hd in Hcr.
  rewrite Hres, Hcr, Hw, Hcw, Hw'. done.
Qed.

(** The three ways through [lambda_handler]. *)
Lemma lambda_handler_log_raises w event e :
  json_dumps event = Raise e -> handler w event = (w, Raise e).
Proof. intros H. unfold lambda_handler. by rewrite H. Qed.

Lemma lambda_handler_raises w event logged e :
  json_dumps event = Ok logged ->
  event_records event = Raise e ->
  handler w event = (w, Raise e).
Proof. intros Hlog H. unfold lambda_handler. by rewrite Hlog, H. Qed.

Lemma lambda_handler_returns w event logged records :
  json_dumps event = Ok logged ->
  event_records event = Ok records ->
  handler w event
  = (fr_world (process w records),
     response_of json_dumps (fr_results (process w records))).
Proof. intros Hlog H. unfold lambda_handler. by rewrite Hlog, H. Qed.

(** ** The properties *)

(** C1, as the code has it.  For every batch of notifications whose
    event [json.dumps] prints on line 52, the handler runs the loop over
    all of them and reaches its [return]: what it returns is status 200
    with the JSON text of [processed], the number of notifications, and
    [results]; there is one outcome per notification, in input order,
    outcome number [i] being the outcome of notification number [i] on the
    store the earlier ones left; and when notification number [i] fails
    with exception [e] (malformed notification, failed download or read,
    failed sanitising, failed upload) its outcome is the error dict with
    the key read so far and [str(e)]. *)
Theorem handle_one_outcome_per_notification w event logged records :
  json_dumps event = Ok logged ->
  event_records event = Ok records ->
  let results := fr_results (process w records) in
  handler w event
  = (fr_world (process w records),
     match json_dumps
             (PDict [("processed", PInt (Z.of_nat (length records)));
                     ("results", PList results)]) with
     | Ok body => Ok (PDict [("statusCode", PInt 200); ("body", PStr body)])
     | Raise e => Raise e
     end)
  /\ length results = length records
  /\ (forall i record,
        records !! i = Some record ->
        exists d, results !! i = Some d
                  /\ run (before w records i) record (before w records (S i)) d)
  /\ (forall i record w' key e,
        records !! i = Some record ->
        failure (before w records i) record w' key e ->
        results !! i = Some (PDict [("status", PStr "error");
                                    ("input_key", key);
                                    ("error", PStr (exn_str e))])
        /\ before w records (S i) = w').
Proof.
  intros Hlog Hev. cbv zeta.
  destruct (process_records_spec w records) as [Hlen Hspec].
  split; [|split; [done|split; [done|]]].
  - rewrite (lambda_handler_returns w event logged records Hlog Hev).
    unfold response_of, py_len, rbind. by rewrite Hlen.
  - intros i record w' key e Hrecord Hfail.
    destruct (Hspec i record Hrecord) as (d & Hd & Hrun).
    destruct (item_run_det _ _ _ _ _ _ Hrun (run_failure _ _ _ _ _ _ _ _ Hfail))
      as [-> ->].
    done.
Qed.

(** C2, as the code has it.  With Pillow imported, when decoding the
    bytes fails with an exception [e] that is not an [ImportError], be it
    in [Image.open] (not an image) or, once the file is opened, when the
    pixels are read in [convert] or in [save] (truncated data),
    [strip_exif_metadata] raises that same exception: Pillow's error, of
    Pillow's class, and no other. *)
Theorem strip_non_image_decode_error P image_data e :
  import_PIL = Ok P ->
  is_ImportError e = false ->
  Image_open P image_data = Raise e
  \/ (exists i, Image_open P image_data = Ok i
                /\ Image_mode P i <> "RGB"
                /\ Image_convert P i "RGB" = Raise e)
  \/ (exists i, Image_open P image_data = Ok i
                /\ Image_mode P i = "RGB"
                /\ Image_save P i "JPEG" 95 [] = Raise e)
  \/ (exists i i', Image_open P image_data = Ok i
                   /\ Image_mode P i <> "RGB"
                   /\ Image_convert P i "RGB" = Ok i'
                   /\ Image_save P i' "JPEG" 95 [] = Raise e) ->
  strip image_data = Raise e.
Proof.
  intros HP Hcls Hraise. apply strip_reraises; [|done].
  rewrite (strip_exif_try_imported P) by done.
  destruct Hraise as [Hopen|[(i & Hopen & Hmode & Hconv)
                            |[(i & Hopen & Hmode & Hsave)
                             |(i & i' & Hopen & Hmode & Hconv & Hsave)]]];
    rewrite Hopen; simpl; try done.
  - apply String.eqb_neq in Hmode. by rewrite Hmode, Hconv.
  - apply String.eqb_eq in Hmode. by rewrite Hmode.
  - apply String.eqb_neq in Hmode. by rewrite Hmode, Hconv.
Qed.

(** C3, as the code has it.  For every input image that Pillow opens and
    brings to RGB, and whose sides are between 1 and 65500 pixels,
    [strip_exif_metadata] succeeds, and its output opens as an image in
    mode RGB (three channels, no alpha) of the same width and height as
    the input, whatever the mode of the input. *)
Theorem strip_output_rgb_same_size P image_data i i' :
  Pillow_codec P ->
  import_PIL = Ok P ->
  Image_open P image_data = Ok i ->
  as_RGB P i i' ->
  jpeg_sized (Image_size P i) ->
  exists out j,
    strip image_data = Ok out
    /\ Image_open P out = Ok j
    /\ Image_mode P j = "RGB"
    /\ Image_size P j = Image_size P i.
Proof.
  intros HC HP Hopen Hrgb Hsized.
  destruct (strip_decodable P image_data i i' HC HP Hopen Hrgb Hsized)
    as (out & j & _ & Hstrip & Hj & _ & Hmode & Hsize & _).
  by exists out, j.
Qed.

(** C4, as the code has it.  For every input image that Pillow opens and
    brings to RGB, and whose sides are between 1 and 65500 pixels,
    whatever its container format, the output of [strip_exif_metadata] is
    what [save] writes for the RGB image with [format="JPEG"],
    [quality=95] and an empty EXIF block; it opens as a JPEG image
    without an EXIF block. *)
Theorem strip_reencodes_jpeg_no_exif P image_data i i' :
  Pillow_codec P ->
  import_PIL = Ok P ->
  Image_open P image_data = Ok i ->
  as_RGB P i i' ->
  jpeg_sized (Image_size P i) ->
  exists out j,
    Image_save P i' "JPEG" 95 [] = Ok out
    /\ strip image_data = Ok out
    /\ Image_open P out = Ok j
    /\ Image_format P j = "JPEG"
    /\ info_lookup "exif" (Image_info P j) = None.
Proof.
  intros HC HP Hopen Hrgb Hsized.
  destruct (strip_decodable P image_data i i' HC HP Hopen Hrgb Hsized)
    as (out & j & Hsave & Hstrip & Hj & _ & _ & _ & Hfmt & Hexif).
  by exists out, j.
Qed.

(** C5, as the code has it.  For every input image that Pillow opens and
    brings to RGB, and whose sides are between 1 and 65500 pixels,
    sanitising the output of [strip_exif_metadata] once more succeeds,
    and the image it yields has the width and height of the first
    output. *)
Theorem strip_twice_same_size P image_data i i' :
  Pillow_codec P ->
  import_PIL = Ok P ->
  Image_open P image_data = Ok i ->
  as_RGB P i i' ->
  jpeg_sized (Image_size P i) ->
  exists out j out2 j2,
    strip image_data = Ok out
    /\ Image_open P out = Ok j
    /\ strip out = Ok out2
    /\ Image_open P out2 = Ok j2
    /\ Image_size P j2 = Image_size P j.
Proof.
  intros HC HP Hopen Hrgb Hsized.
  destruct (strip_decodable P image_data i i' HC HP Hopen Hrgb Hsized)
    as (out & j & _ & Hstrip & Hj & Hloadj & Hmodej & Hsizej & _).
  assert (Hsizedj : jpeg_sized (Image_size P j)) by by rewrite Hsizej.
  assert (Hrgbj : as_RGB P j j) by (by left).
  destruct (strip_decodable P out j j HC HP Hj Hrgbj Hsizedj)
    as (out2 & j2 & _ & Hstrip2 & Hj2 & _ & _ & Hsize2 & _).
  by exists out, j, out2, j2.
Qed.

(** C6. Every outcome with status [success] belongs to a notification
    whose object was downloaded, sanitised and uploaded: the upload went to
    [OUTPUT_BUCKET] under the key the object was downloaded from, with the
    sanitised bytes as body; [output_key] equals [input_key];
    [input_size] is the length of the downloaded bytes and [output_size]
    the length of the sanitised bytes. *)
Theorem success_outcome_traceable w records i d :
  fr_results (process w records) !! i = Some d ->
  status_of d = Some (PStr "success") ->
  exists record bucket key w1 response image_data sanitized content_type,
    records !! i = Some record
    /\ extract record = Ok (bucket, key)
    /\ get_object s3_client (before w records i) bucket key = (w1, Ok response)
    /\ Body_read response = Ok image_data
    /\ strip image_data = Ok sanitized
    /\ put_object s3_client w1 (PStr OUTPUT_BUCKET) key sanitized content_type
       = (before w records (S i), Ok tt)
    /\ d = PDict [("status", PStr "success");
                  ("input_key", key);
                  ("output_key", key);
                  ("input_size", PInt (Z.of_nat (length image_data)));
                  ("output_size", PInt (Z.of_nat (length sanitized)))].
Proof.
  intros Hd Hstatus.
  destruct (success_inversion w records i d Hd Hstatus)
    as (record & bucket & key & w1 & response & image_data & sanitized
        & Hrecord & Hex & Hget & Hread & Hstrip & Hput & ->).
  by exists record, bucket, key, w1, response, image_data, sanitized,
    (default "image/jpeg" (ContentType response)).
Qed.

(** C7. A notification whose fields cannot be extracted gets the error
    outcome with an empty [input_key], and leaves the store as it was; the
    notifications before and after it are processed as if it were not in
    the batch. *)
Theorem malformed_notification_failure record e :
  extract record = Raise e ->
  (forall fr,
     loop fr record
     = {| fr_world := fr_world fr;
          fr_results := fr_results fr
                          ++ [PDict [("status", PStr "error");
                                     ("input_key", PStr "");
                                     ("error", PStr (exn_str e))]];
          fr_object_key := PStr "" |})
  /\ (forall w rs1 rs2,
        fr_results (process w (rs1 ++ record :: rs2))
        = fr_results (process w rs1)
            ++ error_outcome (PStr "") e
            :: fr_results (process (fr_world (process w rs1)) rs2)
        /\ fr_results (process w (rs1 ++ rs2))
           = fr_results (process w rs1)
               ++ fr_results (process (fr_world (process w rs1)) rs2)
        /\ fr_world (process w (rs1 ++ record :: rs2))
           = fr_world (process w (rs1 ++ rs2))).
Proof.
  intros Hex. split.
  - intros fr. unfold loop_body.
    by rewrite (try_body_malformed _ _ _ Hex).
  - intros w rs1 rs2. apply failed_item_isolated. by apply err_malformed.
Qed.

(** C8. For every outcome with status [success], the upload was made
    with the [ContentType] of the download response when the response has
    one, and with [image/jpeg] otherwise. *)
Theorem upload_content_type w records i d :
  fr_results (process w records) !! i = Some d ->
  status_of d = Some (PStr "success") ->
  exists record bucket key w1 response sanitized content_type,
    records !! i = Some record
    /\ extract record = Ok (bucket, key)
    /\ get_object s3_client (before w records i) bucket key = (w1, Ok response)
    /\ put_object s3_client w1 (PStr OUTPUT_BUCKET) key sanitized content_type
       = (before w records (S i), Ok tt)
    /\ content_type = match ContentType response with
                      | Some declared => declared
                      | None => "image/jpeg"
                      end.
Proof.
  intros Hd Hstatus.
  destruct (success_inversion w records i d Hd Hstatus)
    as (record & bucket & key & w1 & response & image_data & sanitized
        & Hrecord & Hex & Hget & Hread & Hstrip & Hput & ->).
  exists record, bucket, key, w1, response, sanitized,
    (default "image/jpeg" (ContentType response)).
  repeat split; try done; by destruct (ContentType response).
Qed.

(** C9, as the code has it.  For every event that [json.dumps] prints
    on line 52 and that is a dict whose [Records] entry is absent or is a
    list, a string or a dict, the handler reaches its [return]: status 200
    and a body that is the JSON text of [processed], the number of
    results, and [results], whatever the outcomes are; with no [Records]
    entry, or an empty list, [processed] is 0, [results] is empty and the
    store is untouched. *)
Theorem handler_response_shape w (d : list (string * pyval)) logged :
  json_dumps (PDict d) = Ok logged ->
  match dict_lookup "Records" d with
  | Some v => iterable v = true
  | None => True
  end ->
  (exists w' results,
     handler w (PDict d)
     = (w', match json_dumps
                    (PDict [("processed", PInt (Z.of_nat (length results)));
                            ("results", PList results)]) with
            | Ok body =>
                Ok (PDict [("statusCode", PInt 200); ("body", PStr body)])
            | Raise e => Raise e
            end))
  /\ (dict_lookup "Records" d = None
      \/ dict_lookup "Records" d = Some (PList []) ->
      handler w (PDict d)
      = (w, match json_dumps
                    (PDict [("processed", PInt 0); ("results", PList [])]) with
            | Ok body =>
                Ok (PDict [("statusCode", PInt 200); ("body", PStr body)])
            | Raise e => Raise e
            end)).
Proof.
  intros Hlog Hiter. split.
  - assert (exists records, event_records (PDict d) = Ok records)
      as [records Hev].
    { unfold event_records, py_get; simpl.
      destruct (dict_lookup "Records" d) as [v|]; simpl; [|by eexists].
      destruct v; simpl; try discriminate; by eexists. }
    rewrite (lambda_handler_returns w _ logged records Hlog Hev).
    by eexists _, _.
  - intros Hempty.
    assert (Hev : event_records (PDict d) = Ok []).
    { unfold event_records, py_get; simpl. by destruct Hempty as [-> | ->]. }
    by rewrite (lambda_handler_returns w _ logged [] Hlog Hev).
Qed.

(** C10. When importing Pillow raises an [ImportError],
    [strip_exif_metadata] raises
    [RuntimeError("Image processing library not available")] for every
    input; a notification whose object was downloaded gets the error
    outcome with that message, nothing is uploaded for it, and the loop
    goes on: every notification of the batch has its outcome. *)
Theorem import_failure_recorded e :
  import_PIL = Raise e ->
  is_ImportError e = true ->
  (forall image_data,
     strip image_data
     = Raise (Exn RuntimeError "Image processing library not available"))
  /\ (forall w records i record bucket key w1 response image_data,
        records !! i = Some record ->
        extract record = Ok (bucket, key) ->
        get_object s3_client (before w records i) bucket key
          = (w1, Ok response) ->
        Body_read response = Ok image_data ->
        fr_results (process w records) !! i
          = Some (PDict [("status", PStr "error");
                         ("input_key", key);
                         ("error",
                          PStr "Image processing library not available")])
        /\ before w records (S i) = w1
        /\ length (fr_results (process w records)) = length records).
Proof.
  intros Himport Hcls.
  assert (Hstrip : forall image_data, strip image_data = Raise pillow_unavailable).
  { intros image_data. unfold strip_exif_metadata, strip_exif_try.
    rewrite Himport; simpl. by rewrite Hcls. }
  split; [done|].
  intros w records i record bucket key w1 response image_data
    Hrecord Hex Hget Hread.
  destruct (process_records_spec w records) as [Hlen Hspec].
  destruct (Hspec i record Hrecord) as (d & Hd & Hrun).
  assert (Hfail : failure (before w records i) record w1 key pillow_unavailable)
    by (eapply err_sanitize; eauto).
  destruct (item_run_det _ _ _ _ _ _ Hrun (run_failure _ _ _ _ _ _ _ _ Hfail))
    as [-> ->].
  done.
Qed.

End HandlerFacts.

(** ** The doubles meet what is assumed of the libraries *)

Lemma drop_alpha_length (n : nat) (px : list byte) :
  length px = (n * 4)%nat -> length (drop_alpha px) = (n * 3)%nat.
Proof.
  revert px. induction n as [|n IH]; intros px Hlen.
  - by destruct px.
  - destruct px as [|r [|g [|b [|a rest]]]]; simpl in Hlen; try lia.
    simpl. rewrite IH; lia.
Qed.

Lemma triple_length (px : list byte) :
  length (flat_map (fun x => [x; x; x]) px) = (length px * 3)%nat.
Proof. induction px as [|x px IH]; simpl; [done|]. rewrite IH. lia. Qed.

Lemma toy_mode_name_RGB (m : toy_mode) : toy_mode_name m = "RGB" -> m = ModeRGB.
Proof. by destruct m. Qed.

Lemma toy_load_loaded (i : toy_image) :
  toy_load i = Ok tt <-> toy_loaded i = true.
Proof. unfold toy_load. by destruct (toy_loaded i). Qed.

Lemma byte_of_short_length (l : list byte) :
  exists c, Byte.of_nat (length (take 255 l)) = Some c
            /\ Byte.to_nat c = length (take 255 l).
Proof.
  destruct (Byte.of_nat (length (take 255 l))) as [c|] eqn:Hc.
  - exists c. split; [done|]. by apply Byte.to_of_nat.
  - apply Byte.of_nat_None_iff in Hc. rewrite length_take in Hc. lia.
Qed.

(** The codec has the three properties assumed of Pillow. *)
Lemma toy_codec : Pillow_codec toy_PIL.
Proof.
  split.
  - intros i i' Hconv.
    change (Image_convert toy_PIL i "RGB") with (toy_convert i "RGB") in Hconv.
    unfold toy_convert in Hconv.
    change (String.eqb "RGB" "RGB") with true in Hconv. cbv iota in Hconv.
    destruct (toy_loaded i) eqn:Hloaded; [|discriminate].
    injection Hconv as <-.
    split; [|done].
    apply toy_load_loaded.
    unfold toy_loaded in *; simpl. apply Nat.eqb_eq in Hloaded.
    apply Nat.eqb_eq. unfold toy_rgb_pixels.
    destruct (t_mode i); simpl in *.
    + done.
    + by apply drop_alpha_length.
    + rewrite triple_length. lia.
  - intros i Hloaded%toy_load_loaded Hmode [Hw Hh].
    change (Image_size toy_PIL i) with (toy_size i) in Hw, Hh.
    change (Image_mode toy_PIL i) with (toy_mode_name (t_mode i)) in Hmode.
    apply toy_mode_name_RGB in Hmode.
    change (Image_save toy_PIL i "JPEG" 95 [])
      with (toy_save i "JPEG" 95 []).
    unfold toy_save. rewrite Hloaded, Hmode.
    destruct (byte_of_short_length (t_comment i)) as (c & Hc & _).
    assert (Z.eqb (toy_size i).1 0 || Z.eqb (toy_size i).2 0 = false) as ->
      by (apply orb_false_intro; apply Z.eqb_neq; lia).
    assert (Z.ltb 65500 (toy_size i).1 || Z.ltb 65500 (toy_size i).2 = false)
      as -> by (apply orb_false_intro; apply Z.ltb_ge; lia).
    simpl. rewrite Hc. by eexists.
  - intros i out Hmode Hsave.
    change (Image_mode toy_PIL i) with (toy_mode_name (t_mode i)) in Hmode.
    apply toy_mode_name_RGB in Hmode.
    change (Image_save toy_PIL i "JPEG" 95 [])
      with (toy_save i "JPEG" 95 []) in Hsave.
    unfold toy_save in Hsave.
    change (String.eqb "JPEG" "JPEG") with true in Hsave. cbv iota in Hsave.
    destruct (toy_loaded i) eqn:Hloaded; [|discriminate].
    rewrite Hmode in Hsave.
    destruct (Z.eqb (toy_size i).1 0 || Z.eqb (toy_size i).2 0);
      [discriminate|].
    destruct (Z.ltb 65500 (toy_size i).1 || Z.ltb 65500 (toy_size i).2);
      [discriminate|].
    destruct (byte_of_short_length (t_comment i)) as (c & Hc & Hlen).
    change (Byte.of_nat (length (@nil byte))) with (Some x00) in Hsave.
    rewrite Hc in Hsave. injection Hsave as <-.
    set (comment := take 255 (t_comment i)) in *.
    exists {| t_format := "JPEG"; t_mode := ModeRGB;
              t_width := t_width i; t_height := t_height i;
              t_exif := []; t_comment := comment;
              t_pixels := t_pixels i |}.
    split.
    { change (Image_open toy_PIL) with toy_open.
      unfold toy_open.
      change (Byte.to_nat x00) with 0%nat. rewrite Hlen. simpl.
      assert ((length comment <=? length (comment ++ t_pixels i))%nat = true)
        as -> by (apply Nat.leb_le; rewrite length_app; lia).
      rewrite drop_app_length, drop_0, take_app_length.
      by destruct (t_width i), (t_height i). }
    split.
    { apply toy_load_loaded. unfold toy_loaded in *; simpl.
      by rewrite Hmode in Hloaded. }
    split; [done|]. split; [done|]. split; [done|].
    simpl. unfold toy_info; simpl. by destruct comment.
Qed.

(** In the in-memory S3 a download never changes the store, so a record
    whose download fails is isolated from the rest of the batch. *)
Lemma mem_fetch_failure_isolated import_PIL OUTPUT_BUCKET
    (w : mem_store) rs1 record rs2 bucket key e :
  let process := process_records mem_s3 import_PIL OUTPUT_BUCKET in
  extract record = Ok (bucket, key) ->
  snd (mem_get_object (fr_world (process w rs1)) bucket key) = Raise e ->
  fr_results (process w (rs1 ++ record :: rs2))
  = fr_results (process w rs1)
      ++ error_outcome key e
      :: fr_results (process (fr_world (process w rs1)) rs2)
  /\ fr_results (process w (rs1 ++ rs2))
     = fr_results (process w rs1)
         ++ fr_results (process (fr_world (process w rs1)) rs2)
  /\ fr_world (process w (rs1 ++ record :: rs2))
     = fr_world (process w (rs1 ++ rs2)).
Proof.
  intros process Hex Hget. subst process.
  apply failed_item_isolated. eapply err_fetch; [done|].
  simpl. revert Hget. unfold mem_get_object.
  repeat case_match; simpl; congruence.
Qed.

(** ** The handler at work on the doubles *)

Example sample_results :
  fr_results (process_records mem_s3 (Ok toy_PIL) test_output_bucket
                test_store sample_records)
  = [success_outcome (PStr "photo.png") (PStr "photo.png")
       rgba_file rgba_sanitized;
     error_outcome (PStr "missing.jpg") NoSuchKey;
     error_outcome (PStr "") (Exn TypeError "'int' object is not subscriptable");
     error_outcome (PStr "notes.txt") cannot_identify;
     success_outcome (PStr "plain.jpg") (PStr "plain.jpg") rgb_file rgb_file].
Proof. vm_compute. reflexivity. Qed.

(** The sanitised PNG lands in the output bucket under the key it had in
    the input bucket, with the content type the download declared. *)
Example sample_upload :
  objects (fst (test_handler test_store sample_event))
    !! ("test-output-bucket", "photo.png")
  = Some {| obj_body := rgba_sanitized; obj_content_type := Some "image/png" |}.
Proof. vm_compute. reflexivity. Qed.

(** Without a declared content type the upload says [image/jpeg]. *)
Example sample_upload_default :
  objects (fst (test_handler test_store sample_event))
    !! ("test-output-bucket", "plain.jpg")
  = Some {| obj_body := rgb_file; obj_content_type := Some "image/jpeg" |}.
Proof. vm_compute. reflexivity. Qed.

(** Nothing is uploaded for a notification that failed. *)
Example sample_no_upload :
  objects (fst (test_handler test_store sample_event))
    !! ("test-output-bucket", "notes.txt") = None.
Proof. vm_compute. reflexivity. Qed.

(** [test_handles_empty_event] *)
Example empty_event :
  test_handler test_store (PDict [("Records", PList [])])
  = (test_store,
     Ok (PDict [("statusCode", PInt 200);
                ("body", PStr (simple_json_dumps
                   (PDict [("processed", PInt 0); ("results", PList [])])))])).
Proof. reflexivity. Qed.

(** [test_raises_error_on_invalid_image] *)
Example invalid_image_raises :
  strip_exif_metadata (Ok toy_PIL) not_an_image = Raise cannot_identify.
Proof. reflexivity. Qed.

(** [test_converts_non_rgb_to_rgb] *)
Example rgba_is_converted :
  strip_exif_metadata (Ok toy_PIL) rgba_file = Ok rgba_sanitized.
Proof. reflexivity. Qed.

(** A file cut short opens, and fails when its pixels are needed. *)
Example truncated_image_raises :
  strip_exif_metadata (Ok toy_PIL) truncated_file = Raise truncated.
Proof. reflexivity. Qed.

Lemma rgba_image_sized : jpeg_sized (Image_size toy_PIL rgba_image).
Proof. vm_compute. repeat split; discriminate. Qed.

Lemma rgba_image_as_RGB : as_RGB toy_PIL rgba_image rgba_converted.
Proof. right. split; [discriminate|reflexivity]. Qed.

(** ** The properties on the doubles *)

(** With a notification that is nested too deep for [json.dumps], line 52
    raises and the whole invocation fails before the loop starts: no
    outcome is reported, although the notification names an object the
    loop would have sanitised. *)
Lemma handler_raises_on_deep_event :
  event_records deep_event = Ok [deep_record]
  /\ fr_results (process_records mem_s3 (Ok toy_PIL) test_output_bucket
                   test_store [deep_record])
     = [success_outcome (PStr "photo.png") (PStr "photo.png")
          rgba_file rgba_sanitized]
  /\ test_handler test_store deep_event = (test_store, Raise too_deep).
Proof. repeat split; vm_compute; reflexivity. Qed.

Lemma handle_one_outcome_per_notification_witness :
  test_json_dumps sample_event = Ok (simple_json_dumps sample_event)
  /\ event_records sample_event = Ok sample_records
  /\ length (fr_results (process_records mem_s3 (Ok toy_PIL) test_output_bucket
                          test_store sample_records))
     = length sample_records.
Proof.
  assert (Hlog : test_json_dumps sample_event
                 = Ok (simple_json_dumps sample_event))
    by (vm_compute; reflexivity).
  split; [exact Hlog|]. split; [reflexivity|].
  destruct (handle_one_outcome_per_notification mem_s3 (Ok toy_PIL)
              test_output_bucket test_json_dumps test_store
              sample_event (simple_json_dumps sample_event) sample_records
              Hlog eq_refl) as (_ & Hlen & _).
  exact Hlen.
Defined.

(** Without Pillow the bytes that are no image make
    [strip_exif_metadata] raise the [RuntimeError] of line 151, which is
    no decode error. *)
Lemma strip_non_image_without_pillow :
  strip_exif_metadata (Ok toy_PIL) not_an_image = Raise cannot_identify
  /\ strip_exif_metadata
       (Raise (Exn ModuleNotFoundError "No module named 'PIL'")) not_an_image
     = Raise (Exn RuntimeError "Image processing library not available")
  /\ is_OSError (Exn RuntimeError "Image processing library not available")
     = false.
Proof. repeat split. Qed.

Lemma strip_non_image_decode_error_witness :
  is_ImportError truncated = false
  /\ (exists i, Image_open toy_PIL truncated_file = Ok i
                /\ Image_mode toy_PIL i <> "RGB"
                /\ Image_convert toy_PIL i "RGB" = Raise truncated)
  /\ strip_exif_metadata (Ok toy_PIL) truncated_file = Raise truncated.
Proof.
  assert (H : exists i, Image_open toy_PIL truncated_file = Ok i
                /\ Image_mode toy_PIL i <> "RGB"
                /\ Image_convert toy_PIL i "RGB" = Raise truncated)
    by (eexists; split; [reflexivity|split; [discriminate|reflexivity]]).
  split; [reflexivity|]. split; [exact H|].
  exact (strip_non_image_decode_error (Ok toy_PIL) toy_PIL truncated_file
           truncated eq_refl eq_refl (or_intror (or_introl H))).
Defined.

(** A complete image 65501 pixels wide opens and loads, and
    [strip_exif_metadata] fails on it: JPEG has no room for that width. *)
Lemma strip_fails_on_wide_image :
  Image_open toy_PIL wide_file = Ok wide_image
  /\ Image_load toy_PIL wide_image = Ok tt
  /\ is_Ok (Image_convert toy_PIL wide_image "RGB") = true
  /\ Image_size toy_PIL wide_image = (65501, 1)
  /\ strip_exif_metadata (Ok toy_PIL) wide_file = Raise too_large.
Proof.
  split; [reflexivity|].
  repeat split; vm_compute; reflexivity.
Qed.

Lemma strip_output_rgb_same_size_witness :
  Image_open toy_PIL rgba_file = Ok rgba_image
  /\ as_RGB toy_PIL rgba_image rgba_converted
  /\ jpeg_sized (Image_size toy_PIL rgba_image)
  /\ exists out j,
       strip_exif_metadata (Ok toy_PIL) rgba_file = Ok out
       /\ Image_open toy_PIL out = Ok j
       /\ Image_mode toy_PIL j = "RGB"
       /\ Image_size toy_PIL j = Image_size toy_PIL rgba_image.
Proof.
  split; [reflexivity|]. split; [exact rgba_image_as_RGB|].
  split; [exact rgba_image_sized|].
  exact (strip_output_rgb_same_size (Ok toy_PIL) toy_PIL rgba_file
           rgba_image rgba_converted toy_codec eq_refl eq_refl
           rgba_image_as_RGB rgba_image_sized).
Defined.

(** The comment of the input is still in the output: the EXIF block is
    the only metadata the code empties. *)
Lemma strip_keeps_comment :
  (exists i, Image_open toy_PIL commented_file = Ok i
             /\ Image_info toy_PIL i
                = [("exif", [xee]); ("comment", [x68; x69])])
  /\ strip_exif_metadata (Ok toy_PIL) commented_file = Ok commented_sanitized
  /\ exists j, Image_open toy_PIL commented_sanitized = Ok j
               /\ Image_info toy_PIL j = [("comment", [x68; x69])].
Proof.
  split; [eexists; split; reflexivity|].
  split; [reflexivity|].
  eexists; split; reflexivity.
Qed.

Lemma strip_reencodes_jpeg_no_exif_witness :
  Image_open toy_PIL rgba_file = Ok rgba_image
  /\ as_RGB toy_PIL rgba_image rgba_converted
  /\ jpeg_sized (Image_size toy_PIL rgba_image)
  /\ exists out j,
       Image_save toy_PIL rgba_converted "JPEG" 95 [] = Ok out
       /\ strip_exif_metadata (Ok toy_PIL) rgba_file = Ok out
       /\ Image_open toy_PIL out = Ok j
       /\ Image_format toy_PIL j = "JPEG"
       /\ info_lookup "exif" (Image_info toy_PIL j) = None.
Proof.
  split; [reflexivity|]. split; [exact rgba_image_as_RGB|].
  split; [exact rgba_image_sized|].
  exact (strip_reencodes_jpeg_no_exif (Ok toy_PIL) toy_PIL rgba_file
           rgba_image rgba_converted toy_codec eq_refl eq_refl
           rgba_image_as_RGB rgba_image_sized).
Defined.

(** A complete image 65501 pixels high opens and loads, and the first
    pass fails on it, so there is nothing to sanitise a second time. *)
Lemma strip_twice_fails_on_tall_image :
  Image_open toy_PIL tall_file = Ok tall_image
  /\ Image_load toy_PIL tall_image = Ok tt
  /\ is_Ok (Image_convert toy_PIL tall_image "RGB") = true
  /\ Image_size toy_PIL tall_image = (1, 65501)
  /\ strip_exif_metadata (Ok toy_PIL) tall_file = Raise too_large
  /\ ~ exists out out2,
         strip_exif_metadata (Ok toy_PIL) tall_file = Ok out
         /\ strip_exif_metadata (Ok toy_PIL) out = Ok out2.
Proof.
  assert (H : strip_exif_metadata (Ok toy_PIL) tall_file = Raise too_large)
    by (vm_compute; reflexivity).
  split; [reflexivity|].
  split; [vm_compute; reflexivity|].
  split; [vm_compute; reflexivity|].
  split; [vm_compute; reflexivity|].
  split; [exact H|].
  intros (out & out2 & Hout & _). rewrite H in Hout. discriminate Hout.
Qed.

Lemma strip_twice_same_size_witness :
  Image_open toy_PIL rgba_file = Ok rgba_image
  /\ as_RGB toy_PIL rgba_image rgba_converted
  /\ jpeg_sized (Image_size toy_PIL rgba_image)
  /\ exists out j out2 j2,
       strip_exif_metadata (Ok toy_PIL) rgba_file = Ok out
       /\ Image_open toy_PIL out = Ok j
       /\ strip_exif_metadata (Ok toy_PIL) out = Ok out2
       /\ Image_open toy_PIL out2 = Ok j2
       /\ Image_size toy_PIL j2 = Image_size toy_PIL j.
Proof.
  split; [reflexivity|]. split; [exact rgba_image_as_RGB|].
  split; [exact rgba_image_sized|].
  exact (strip_twice_same_size (Ok toy_PIL) toy_PIL rgba_file
           rgba_image rgba_converted toy_codec eq_refl eq_refl
           rgba_image_as_RGB rgba_image_sized).
Defined.

Lemma success_outcome_traceable_witness :
  let results := fr_results (process_records mem_s3 (Ok toy_PIL)
                               test_output_bucket test_store sample_records) in
  let d := success_outcome (PStr "photo.png") (PStr "photo.png")
             rgba_file rgba_sanitized in
  results !! 0%nat = Some d
  /\ status_of d = Some (PStr "success")
  /\ exists record bucket key w1 response image_data sanitized content_type,
       sample_records !! 0%nat = Some record
       /\ extract record = Ok (bucket, key)
       /\ get_object mem_s3
            (world_before mem_s3 (Ok toy_PIL) test_output_bucket
               test_store sample_records 0) bucket key = (w1, Ok response)
       /\ Body_read response = Ok image_data
       /\ strip_exif_metadata (Ok toy_PIL) image_data = Ok sanitized
       /\ put_object mem_s3 w1 (PStr test_output_bucket) key sanitized
            content_type
          = (world_before mem_s3 (Ok toy_PIL) test_output_bucket
               test_store sample_records 1, Ok tt)
       /\ d = PDict [("status", PStr "success");
                     ("input_key", key);
                     ("output_key", key);
                     ("input_size", PInt (Z.of_nat (length image_data)));
                     ("output_size", PInt (Z.of_nat (length sanitized)))].
Proof.
  cbv zeta.
  assert (H : fr_results (process_records mem_s3 (Ok toy_PIL)
                 test_output_bucket test_store sample_records) !! 0%nat
              = Some (success_outcome (PStr "photo.png") (PStr "photo.png")
                        rgba_file rgba_sanitized))
    by (vm_compute; reflexivity).
  split; [exact H|]. split; [reflexivity|].
  exact (success_outcome_traceable mem_s3 (Ok toy_PIL) test_output_bucket
           test_store sample_records 0%nat _ H eq_refl).
Defined.

Lemma malformed_notification_failure_witness :
  extract (PInt 3) = Raise (Exn TypeError "'int' object is not subscriptable")
  /\ forall fr : frame,
       loop_body mem_s3 (Ok toy_PIL) test_output_bucket fr (PInt 3)
       = {| fr_world := fr_world fr;
            fr_results :=
              fr_results fr
                ++ [PDict [("status", PStr "error");
                           ("input_key", PStr "");
                           ("error", PStr "'int' object is not subscriptable")]];
            fr_object_key := PStr "" |}.
Proof.
  split; [reflexivity|].
  destruct (malformed_notification_failure mem_s3 (Ok toy_PIL)
              test_output_bucket (PInt 3)
              (Exn TypeError "'int' object is not subscriptable") eq_refl)
    as [Hloop _].
  exact Hloop.
Defined.

Lemma upload_content_type_witness :
  let results := fr_results (process_records mem_s3 (Ok toy_PIL)
                               test_output_bucket test_store sample_records) in
  let d := success_outcome (PStr "plain.jpg") (PStr "plain.jpg")
             rgb_file rgb_file in
  results !! 4%nat = Some d
  /\ status_of d = Some (PStr "success")
  /\ exists record bucket key w1 response sanitized content_type,
       sample_records !! 4%nat = Some record
       /\ extract record = Ok (bucket, key)
       /\ get_object mem_s3
            (world_before mem_s3 (Ok toy_PIL) test_output_bucket
               test_store sample_records 4) bucket key = (w1, Ok response)
       /\ put_object mem_s3 w1 (PStr test_output_bucket) key sanitized
            content_type
          = (world_before mem_s3 (Ok toy_PIL) test_output_bucket
               test_store sample_records 5, Ok tt)
       /\ content_type = match ContentType response with
                         | Some declared => declared
                         | None => "image/jpeg"
                         end.
Proof.
  cbv zeta.
  assert (H : fr_results (process_records mem_s3 (Ok toy_PIL)
                 test_output_bucket test_store sample_records) !! 4%nat
              = Some (success_outcome (PStr "plain.jpg") (PStr "plain.jpg")
                        rgb_file rgb_file))
    by (vm_compute; reflexivity).
  split; [exact H|]. split; [reflexivity|].
  exact (upload_content_type mem_s3 (Ok toy_PIL) test_output_bucket
           test_store sample_records 4%nat _ H eq_refl).
Defined.

(** With [Records] set to [None] the loop cannot start and the handler
    raises: no response is returned, and no [processed] of 0. *)
Lemma handler_raises_on_null_records :
  test_handler test_store (PDict [("Records", PNone)])
  = (test_store, Raise (Exn TypeError "'NoneType' object is not iterable"))
  /\ ~ exists w' response,
         test_handler test_store (PDict [("Records", PNone)])
         = (w', Ok response).
Proof.
  split; [reflexivity|].
  intros (w' & response & H). vm_compute in H. discriminate H.
Qed.

Lemma handler_response_shape_witness :
  test_json_dumps sample_event = Ok (simple_json_dumps sample_event)
  /\ iterable (PList sample_records) = true
  /\ exists w' results,
       test_handler test_store sample_event
       = (w', match test_json_dumps
                      (PDict [("processed", PInt (Z.of_nat (length results)));
                              ("results", PList results)]) with
              | Ok body =>
                  Ok (PDict [("statusCode", PInt 200); ("body", PStr body)])
              | Raise e => Raise e
              end).
Proof.
  assert (Hlog : test_json_dumps (PDict [("Records", PList sample_records)])
                 = Ok (simple_json_dumps sample_event))
    by (vm_compute; reflexivity).
  split; [exact Hlog|]. split; [reflexivity|].
  destruct (handler_response_shape mem_s3 (Ok toy_PIL) test_output_bucket
              test_json_dumps test_store
              [("Records", PList sample_records)]
              (simple_json_dumps sample_event) Hlog eq_refl) as [H _].
  exact H.
Defined.

Lemma import_failure_recorded_witness :
  let e := Exn ModuleNotFoundError "No module named 'PIL'" in
  is_ImportError e = true
  /\ forall image_data,
       strip_exif_metadata (Raise e) image_data
       = Raise (Exn RuntimeError "Image processing library not available").
Proof.
  cbv zeta. split; [reflexivity|].
  destruct (import_failure_recorded mem_s3
              (Raise (Exn ModuleNotFoundError "No module named 'PIL'"))
              test_output_bucket
              (Exn ModuleNotFoundError "No module named 'PIL'")
              eq_refl eq_refl) as [H _].
  exact H.
Defined.

(** Without Pillow every downloaded object is reported as failed, and the
    handler still returns. *)
Example sample_results_without_pillow :
  fr_results (process_records mem_s3
                (Raise (Exn ModuleNotFoundError "No module named 'PIL'"))
                test_output_bucket test_store
                [s3_record "test-input-bucket" "photo.png";
                 s3_record "test-input-bucket" "plain.jpg"])
  = [error_outcome (PStr "photo.png") pillow_unavailable;
     error_outcome (PStr "plain.jpg") pillow_unavailable].
Proof. vm_compute. reflexivity. Qed.

(** ** Further properties of the handler *)

Section Further.

Context {W : Type}.
Variable s3_client : S3Client W.
Variable import_PIL : result PIL_Image.
Variable OUTPUT_BUCKET : string.
Variable json_dumps : pyval -> result string.

Local Abbreviation strip := (strip_exif_metadata import_PIL).
Local Abbreviation loop := (loop_body s3_client import_PIL OUTPUT_BUCKET).
Local Abbreviation failure := (item_error s3_client import_PIL OUTPUT_BUCKET).
Local Abbreviation run := (item_run s3_client import_PIL OUTPUT_BUCKET).
Local Abbreviation process := (process_records s3_client import_PIL OUTPUT_BUCKET).
Local Abbreviation before := (world_before s3_client import_PIL OUTPUT_BUCKET).
Local Abbreviation handler :=
  (lambda_handler s3_client import_PIL OUTPUT_BUCKET json_dumps).

Lemma loop_malformed record e fr :
  extract record = Raise e ->
  loop fr record
  = {| fr_world := fr_world fr;
       fr_results := fr_results fr ++ [error_outcome (PStr "") e];
       fr_object_key := PStr "" |}.
Proof.
  intros Hex. unfold loop_body.
  by rewrite (try_body_malformed _ _ _ _ _ _ Hex).
Qed.

Lemma key_after_fields record :
  key_after record
  = match bucket_name_of record, object_key_of record with
    | Ok _, Ok key => key
    | _, _ => PStr ""
    end.
Proof.
  unfold key_after, extract, rbind.
  by destruct (bucket_name_of record), (object_key_of record).
Qed.

Lemma item_run_input_key w record w' d :
  run w record w' d -> input_key_of d = Some (key_after record).
Proof.
  unfold key_after.
  intros [? key e Herr|bucket key ? ? ? ? ? Hex]; [|by rewrite Hex].
  destruct Herr; simpl;
    match goal with H : extract _ = _ |- _ => by rewrite H end.
Qed.

(** X1. The ways through the handler.  It raises before any record is
    looked at, with the store untouched, in three cases: whatever
    [json.dumps(event)] raises on line 52, [AttributeError] when the event
    is not a dict, [TypeError] when its [Records] entry is [None], a bool
    or a number.  In every other case the loop runs to its end over the
    items of [Records] (over nothing when the entry is missing), and the
    result is that of the [return] statement: the response, or whatever
    [json.dumps] raises on the body. *)
Theorem handler_returns_or_raises w event :
  match json_dumps event with
  | Raise e => handler w event = (w, Raise e)
  | Ok _ =>
      match event with
      | PDict d =>
          match dict_lookup "Records" d with
          | None => handler w event = (w, response_of json_dumps [])
          | Some v =>
              if iterable v
              then exists records,
                     py_iter v = Ok records
                     /\ handler w event
                        = (fr_world (process w records),
                           response_of json_dumps
                             (fr_results (process w records)))
              else handler w event
                   = (w, Raise (Exn TypeError
                                  ("'" ++ type_name v
                                       ++ "' object is not iterable")))
          end
      | _ =>
          handler w event
          = (w, Raise (Exn AttributeError
                         ("'" ++ type_name event
                              ++ "' object has no attribute 'get'")))
      end
  end.
Proof.
  unfold lambda_handler, event_records, py_get.
  destruct (json_dumps event) as [logged|e]; [|done].
  destruct event as [| | | | | |d]; simpl; try done.
  destruct (dict_lookup "Records" d) as [v|]; simpl; [|done].
  destruct v; simpl; try done; by eexists.
Qed.

(** X2. The [input_key] of an outcome depends on the record alone, not on
    the store, on Pillow or on how far the iteration got: it is the object
    key when both the bucket name and the object key can be read, and the
    empty string otherwise, also when the record does carry an object key
    and only lacks the bucket name. *)
Theorem outcome_input_key w records i record d :
  records !! i = Some record ->
  fr_results (process w records) !! i = Some d ->
  input_key_of d
  = Some match bucket_name_of record, object_key_of record with
         | Ok _, Ok key => key
         | _, _ => PStr ""
         end.
Proof.
  intros Hrecord Hd.
  destruct (outcome_of_record _ _ _ _ _ _ _ Hd) as (record' & Hrecord' & Hrun).
  assert (record' = record) as -> by congruence.
  rewrite <- key_after_fields. by eapply item_run_input_key.
Qed.

(** X3. For a record made of dicts that lacks one of the fields [s3],
    [bucket], [name], [object], [key], the error of the outcome is the
    name of the first missing field, in quotes (the text of the
    [KeyError]); the [input_key] is empty and no call is made on S3. *)
Theorem missing_field_message fr record field :
  missing_field record = Some field ->
  loop fr record
  = {| fr_world := fr_world fr;
       fr_results :=
         fr_results fr
           ++ [PDict [("status", PStr "error");
                      ("input_key", PStr "");
                      ("error", PStr ("'" ++ field ++ "'"))]];
       fr_object_key := PStr "" |}.
Proof.
  intros Hmissing.
  assert (Hex : extract record = Raise (Exn KeyError ("'" ++ field ++ "'"))).
  { unfold missing_field in Hmissing.
    unfold extract, bucket_name_of, object_key_of.
    destruct record as [| | | | | |d]; try discriminate; simpl.
    destruct (dict_lookup "s3" d) as [s3|]; simpl; [|by simplify_eq].
    destruct s3 as [| | | | | |s]; try discriminate; simpl.
    destruct (dict_lookup "bucket" s) as [bucket|]; simpl; [|by simplify_eq].
    destruct bucket as [| | | | | |b]; try discriminate; simpl.
    destruct (dict_lookup "name" b) as [name|]; simpl; [|by simplify_eq].
    destruct (dict_lookup "object" s) as [object|]; simpl; [|by simplify_eq].
    destruct object as [| | | | | |o]; try discriminate; simpl.
    destruct (dict_lookup "key" o) as [key|]; simpl; [discriminate|].
    by simplify_eq. }
  by rewrite (loop_malformed _ _ _ Hex).
Qed.

(** A batch whose items are all strings: every item is malformed, and the
    store is left alone. *)
Lemma process_all_strings w items :
  Forall (fun item => exists s, item = PStr s) items ->
  process w items
  = {| fr_world := w;
       fr_results := replicate (length items)
                       (error_outcome (PStr "") string_index_error);
       fr_object_key := PStr "" |}.
Proof.
  intros Hitems. unfold process_records, init_frame.
  enough (forall results,
            fold_left loop items
              {| fr_world := w; fr_results := results;
                 fr_object_key := PStr "" |}
            = {| fr_world := w;
                 fr_results :=
                   results ++ replicate (length items)
                                (error_outcome (PStr "") string_index_error);
                 fr_object_key := PStr "" |}) as H by apply (H []).
  induction Hitems as [|item items [s ->] _ IH]; intros results; simpl.
  - by rewrite app_nil_r.
  - rewrite (loop_malformed (PStr s) string_index_error) by done. simpl.
    rewrite IH. by rewrite <- app_assoc.
Qed.

Lemma str_chars_strings s :
  Forall (fun item => exists s', item = PStr s') (str_chars s).
Proof. induction s; simpl; constructor; eauto. Qed.

(** X4. A [Records] entry that is a string or a dict is iterated like a
    list, character by character or key by key.  Every item is then a
    string, so, once line 52 has printed the event, every outcome is the
    same error with an empty [input_key], the body reports as many
    outcomes as there are characters or keys, and no call is made on
    S3. *)
Theorem records_not_a_list w d v logged :
  json_dumps (PDict d) = Ok logged ->
  dict_lookup "Records" d = Some v ->
  match v with PStr _ | PDict _ => True | _ => False end ->
  exists items,
    py_iter v = Ok items
    /\ handler w (PDict d)
       = (w, response_of json_dumps
               (replicate (length items)
                  (PDict [("status", PStr "error");
                          ("input_key", PStr "");
                          ("error",
                           PStr "string indices must be integers, not 'str'")]))).
Proof.
  intros Hlog Hlookup Hv.
  assert (exists items, py_iter v = Ok items
            /\ Forall (fun item => exists s, item = PStr s) items)
    as (items & Hiter & Hitems).
  { destruct v as [| | | |s| |kvs]; simpl in Hv; try done;
      simpl; eexists; (split; [reflexivity|]).
    - apply str_chars_strings.
    - clear Hlog Hlookup. induction kvs; simpl; constructor; eauto. }
  exists items. split; [done|].
  unfold lambda_handler, event_records, py_get; simpl.
  rewrite Hlog, Hlookup; simpl. rewrite Hiter.
  by rewrite (process_all_strings w items Hitems).
Qed.

Lemma handler_batch_event w records logged :
  json_dumps (batch_event records) = Ok logged ->
  handler w (batch_event records)
  = (fr_world (process w records),
     response_of json_dumps (fr_results (process w records))).
Proof. intros Hlog. by eapply lambda_handler_returns. Qed.

(** X5. Splitting a batch over two invocations changes nothing, as long
    as line 52 can print each of the three events: the second invocation,
    started on the store the first one left, leaves the store the single
    invocation leaves, and the results of the single invocation are the
    results of the two, in order. *)
Theorem batch_split w rs1 rs2 logged1 logged2 logged :
  json_dumps (batch_event rs1) = Ok logged1 ->
  json_dumps (batch_event rs2) = Ok logged2 ->
  json_dumps (batch_event (rs1 ++ rs2)) = Ok logged ->
  let results1 := fr_results (process w rs1) in
  let w1 := fst (handler w (batch_event rs1)) in
  let results2 := fr_results (process w1 rs2) in
  handler w (batch_event rs1) = (w1, response_of json_dumps results1)
  /\ handler w1 (batch_event rs2)
     = (fst (handler w1 (batch_event rs2)), response_of json_dumps results2)
  /\ handler w (batch_event (rs1 ++ rs2))
     = (fst (handler w1 (batch_event rs2)),
        response_of json_dumps (results1 ++ results2)).
Proof.
  intros Hlog1 Hlog2 Hlog. cbv zeta.
  rewrite (handler_batch_event w rs1 logged1 Hlog1); simpl.
  rewrite (handler_batch_event _ rs2 logged2 Hlog2); simpl.
  rewrite (handler_batch_event w (rs1 ++ rs2) logged Hlog).
  split; [done|]. split; [done|].
  by destruct (process_records_app s3_client import_PIL OUTPUT_BUCKET w rs1 rs2)
    as [-> ->].
Qed.

(** X6. The results hold nothing but outcomes of the two shapes: a
    success with [input_key], an equal [output_key] and the two sizes, or
    an error with [input_key] and the text of the exception. *)
Theorem results_well_formed w records d :
  d ∈ fr_results (process_records s3_client import_PIL OUTPUT_BUCKET w records) ->
  (exists key (image_data sanitized : list byte),
     d = PDict [("status", PStr "success");
                ("input_key", key);
                ("output_key", key);
                ("input_size", PInt (Z.of_nat (length image_data)));
                ("output_size", PInt (Z.of_nat (length sanitized)))])
  \/ (exists key e,
        d = PDict [("status", PStr "error");
                   ("input_key", key);
                   ("error", PStr (exn_str e))]).
Proof.
  intros [i Hd]%list_elem_of_lookup.
  destruct (outcome_of_record _ _ _ _ _ _ _ Hd) as (record & _ & Hrun).
  destruct Hrun; [right|left]; eauto.
Qed.

(** X7. [strip_exif_metadata] never raises an [ImportError]: the only
    one the [try] can raise is replaced by the [RuntimeError]. *)
Theorem strip_never_raises_ImportError image_data e :
  strip_exif_metadata import_PIL image_data = Raise e ->
  is_ImportError e = false.
Proof.
  unfold strip_exif_metadata.
  destruct (strip_exif_try import_PIL image_data) as [out|e']; [done|].
  destruct (is_ImportError e') eqn:Hcls; intros [= <-]; done.
Qed.

(** X8. The [except ImportError] clause spans the whole [try]: an
    [ImportError] raised by [Image.open], by [convert] or by [save], with
    Pillow itself imported, is reported as
    [RuntimeError("Image processing library not available")] too. *)
Theorem import_error_anywhere P image_data e :
  import_PIL = Ok P ->
  is_ImportError e = true ->
  Image_open P image_data = Raise e
  \/ (exists i, Image_open P image_data = Ok i
                /\ Image_mode P i <> "RGB"
                /\ Image_convert P i "RGB" = Raise e)
  \/ (exists i, Image_open P image_data = Ok i
                /\ Image_mode P i = "RGB"
                /\ Image_save P i "JPEG" 95 [] = Raise e)
  \/ (exists i i', Image_open P image_data = Ok i
                   /\ Image_mode P i <> "RGB"
                   /\ Image_convert P i "RGB" = Ok i'
                   /\ Image_save P i' "JPEG" 95 [] = Raise e) ->
  strip image_data
  = Raise (Exn RuntimeError "Image processing library not available").
Proof.
  intros HP Hcls Hraise.
  assert (Htry : strip_exif_try import_PIL image_data = Raise e).
  { rewrite (strip_exif_try_imported import_PIL P) by done.
    destruct Hraise as [Hopen|[(i & Hopen & Hmode & Hconv)
                              |[(i & Hopen & Hmode & Hsave)
                               |(i & i' & Hopen & Hmode & Hconv & Hsave)]]];
      rewrite Hopen; simpl; try done.
    - apply String.eqb_neq in Hmode. by rewrite Hmode, Hconv.
    - apply String.eqb_eq in Hmode. by rewrite Hmode.
    - apply String.eqb_neq in Hmode. by rewrite Hmode, Hconv. }
  unfold strip_exif_metadata. by rewrite Htry, Hcls.
Qed.

(** X9. Whenever [strip_exif_metadata] returns, Pillow was imported, the
    input was opened, and what is returned is what [save] wrote with
    [format="JPEG"], [quality=95] and an empty EXIF block, for the opened
    image when its mode is RGB and for its conversion to RGB otherwise:
    the input bytes are never handed back as they came. *)
Theorem strip_success_reencoded image_data out :
  strip_exif_metadata import_PIL image_data = Ok out ->
  exists P i i',
    import_PIL = Ok P
    /\ Image_open P image_data = Ok i
    /\ (Image_mode P i = "RGB" /\ i' = i
        \/ Image_mode P i <> "RGB" /\ Image_convert P i "RGB" = Ok i')
    /\ Image_save P i' "JPEG" 95 [] = Ok out.
Proof.
  unfold strip_exif_metadata, strip_exif_try, rbind.
  destruct import_PIL as [P|e]; [|by destruct (is_ImportError e)].
  destruct (Image_open P image_data) as [i|e] eqn:Hopen;
    [|by destruct (is_ImportError e)].
  destruct (String.eqb (Image_mode P i) "RGB") eqn:Hmode.
  - apply String.eqb_eq in Hmode.
    destruct (Image_save P i "JPEG" 95 []) as [out'|e] eqn:Hsave;
      [|by destruct (is_ImportError e)].
    intros [= <-]. exists P, i, i.
    split; [done|]. split; [done|]. split; [by left|done].
  - apply String.eqb_neq in Hmode.
    destruct (Image_convert P i "RGB") as [i'|e] eqn:Hconv;
      [|by destruct (is_ImportError e)].
    destruct (Image_save P i' "JPEG" 95 []) as [out'|e] eqn:Hsave;
      [|by destruct (is_ImportError e)].
    intros [= <-]. exists P, i, i'.
    split; [done|]. split; [done|]. split; [by right|done].
Qed.


(** *** The calls made on S3 *)

Local Abbreviation loop_rec :=
  (loop_body (recording s3_client) import_PIL OUTPUT_BUCKET).
Local Abbreviation process_rec :=
  (process_records (recording s3_client) import_PIL OUTPUT_BUCKET).
Local Abbreviation calls := (item_calls s3_client import_PIL OUTPUT_BUCKET).
Local Abbreviation all_calls := (batch_calls s3_client import_PIL OUTPUT_BUCKET).

(** Runs one iteration, with and without the log, along the equations in
    the context. *)
Ltac run_both :=
  split;
  [ intros ? <-
  | intros [[? ?] ? ?] ? [= -> ->] ];
  unfold loop_body, try_body, key_after, item_calls, mbind, lift, with_world;
  simpl;
  repeat match goal with
         | H : _ = _ |- _ => rewrite H; simpl
         end;
  rewrite <- ?app_assoc; reflexivity.

(** One iteration behind the recording client: the outcome and the store
    are those of the bare client, and the log grows by [item_calls]. *)
Lemma loop_recording (w : W) (record : pyval) :
  exists w' d,
    run w record w' d
    /\ (forall fr, fr_world fr = w ->
          loop fr record
          = {| fr_world := w'; fr_results := fr_results fr ++ [d];
               fr_object_key := key_after record |})
    /\ (forall (fr : @frame (W * list s3_call)) log,
          fr_world fr = (w, log) ->
          loop_rec fr record
          = {| fr_world := (w', log ++ calls w record);
               fr_results := fr_results fr ++ [d];
               fr_object_key := key_after record |}).
Proof.
  destruct (extract record) as [[bucket key]|e] eqn:Hex.
  - pose proof Hex as [Hb Hk]%extract_Ok.
    destruct (get_object s3_client w bucket key)
      as [w1 [response|e]] eqn:Hget.
    + destruct (Body_read response) as [image_data|e] eqn:Hread.
      * destruct (strip image_data) as [sanitized|e] eqn:Hstrip.
        -- destruct (put_object s3_client w1 (PStr OUTPUT_BUCKET) key sanitized
                       (default "image/jpeg" (ContentType response)))
             as [w2 [[]|e]] eqn:Hput.
           ++ exists w2, (success_outcome key key image_data sanitized).
              split; [by eapply run_success | run_both].
           ++ exists w2, (error_outcome key e).
              split; [by eapply run_failure, err_write | run_both].
        -- exists w1, (error_outcome key e).
           split; [by eapply run_failure, err_sanitize | run_both].
      * exists w1, (error_outcome key e).
        split; [by eapply run_failure, err_read | run_both].
    + exists w1, (error_outcome key e).
      split; [by eapply run_failure, err_fetch | run_both].
  - exists w, (error_outcome (PStr "") e).
    split; [by apply run_failure, err_malformed|].
    split.
    + intros fr <-. unfold key_after. rewrite Hex. by apply loop_malformed.
    + intros [[w0 log0] results key0] log [= -> ->].
      unfold loop_body, key_after, item_calls.
      rewrite (try_body_malformed _ _ _ _ _ _ Hex), Hex; simpl.
      by rewrite app_nil_r.
Qed.

(** A whole batch behind the recording client. *)
Lemma process_recording (records : list pyval) (w : W) (log : list s3_call) :
  fr_world (process_rec (w, log) records)
    = (fr_world (process w records), log ++ all_calls w records)
  /\ fr_results (process_rec (w, log) records) = fr_results (process w records).
Proof.
  revert w log. induction records as [|record records IH]; intros w log.
  - simpl. by rewrite app_nil_r.
  - change (record :: records) with ([record] ++ records).
    destruct (process_records_app (recording s3_client) import_PIL
                OUTPUT_BUCKET (w, log) [record] records) as [-> ->].
    destruct (process_records_app s3_client import_PIL
                OUTPUT_BUCKET w [record] records) as [-> ->].
    destruct (loop_recording w record) as (w' & d & _ & Hbare & Hrec).
    assert (H1 : process w [record]
                 = {| fr_world := w'; fr_results := [d];
                      fr_object_key := key_after record |}).
    { unfold process_records; simpl. by rewrite (Hbare (init_frame w) eq_refl). }
    assert (H2 : process_rec (w, log) [record]
                 = {| fr_world := (w', log ++ calls w record);
                      fr_results := [d];
                      fr_object_key := key_after record |}).
    { unfold process_records; simpl. by rewrite (Hrec (init_frame (w, log)) log eq_refl). }
    rewrite H1, H2; simpl.
    destruct (IH w' (log ++ calls w record)) as [-> ->].
    rewrite (Hbare (init_frame w) eq_refl); simpl.
    by rewrite <- app_assoc.
Qed.

(** The calls of one iteration: none, the download alone, or the
    download and the upload of what [strip_exif_metadata] made of the
    downloaded bytes. *)
Lemma item_calls_cases w record :
  calls w record = []
  \/ (exists bucket0 key, calls w record = [GetObject bucket0 key])
  \/ (exists bucket0 key w1 response image_data sanitized,
        extract record = Ok (bucket0, key)
        /\ get_object s3_client w bucket0 key = (w1, Ok response)
        /\ Body_read response = Ok image_data
        /\ strip image_data = Ok sanitized
        /\ calls w record
           = [GetObject bucket0 key;
              PutObject (PStr OUTPUT_BUCKET) key sanitized
                (default "image/jpeg" (ContentType response))]).
Proof.
  unfold item_calls.
  destruct (extract record) as [[bucket0 key]|e] eqn:Hex; [|by left].
  destruct (get_object s3_client w bucket0 key) as [w1 [response|e]] eqn:Hget;
    [|right; left; by eexists _, _].
  destruct (Body_read response) as [image_data|e] eqn:Hread; simpl;
    [|right; left; by eexists _, _].
  destruct (strip image_data) as [sanitized|e] eqn:Hstrip;
    [|right; left; by eexists _, _].
  right; right. by exists bucket0, key, w1, response, image_data, sanitized.
Qed.

Lemma world_before_cons w record records i :
  before w (record :: records) (S i)
  = before (fr_world (loop (init_frame w) record)) records i.
Proof.
  unfold world_before. simpl take.
  change (record :: take i records) with ([record] ++ take i records).
  by destruct (process_records_app s3_client import_PIL OUTPUT_BUCKET
                 w [record] (take i records)) as [-> _].
Qed.

(** An upload among the calls of a batch is the upload of one of its
    records. *)
Lemma batch_calls_upload records :
  forall w l1 l2 bucket key body content_type,
    all_calls w records = l1 ++ PutObject bucket key body content_type :: l2 ->
    exists i record bucket0 w1 response image_data l0,
      records !! i = Some record
      /\ extract record = Ok (bucket0, key)
      /\ get_object s3_client (before w records i) bucket0 key
         = (w1, Ok response)
      /\ Body_read response = Ok image_data
      /\ strip image_data = Ok body
      /\ bucket = PStr OUTPUT_BUCKET
      /\ content_type = default "image/jpeg" (ContentType response)
      /\ l1 = l0 ++ [GetObject bucket0 key].
Proof.
  induction records as [|record records IH];
    intros w l1 l2 bucket key body content_type Heq; simpl in Heq.
  { by destruct l1. }
  assert (Hlater : forall l1',
            all_calls (fr_world (loop (init_frame w) record)) records
            = l1' ++ PutObject bucket key body content_type :: l2 ->
            forall pre, l1 = pre ++ l1' ->
            exists i record0 bucket0 w1 response image_data l0,
              (record :: records) !! i = Some record0
              /\ extract record0 = Ok (bucket0, key)
              /\ get_object s3_client (before w (record :: records) i)
                   bucket0 key = (w1, Ok response)
              /\ Body_read response = Ok image_data
              /\ strip image_data = Ok body
              /\ bucket = PStr OUTPUT_BUCKET
              /\ content_type = default "image/jpeg" (ContentType response)
              /\ l1 = l0 ++ [GetObject bucket0 key]).
  { intros l1' Hrest pre ->.
    destruct (IH _ _ _ _ _ _ _ Hrest)
      as (i & record0 & bucket0 & w1 & response & image_data & l0
          & Hi & Hex & Hget & Hread & Hstrip & Hb & Hct & ->).
    exists (S i), record0, bucket0, w1, response, image_data, (pre ++ l0).
    rewrite world_before_cons. by rewrite <- app_assoc. }
  destruct (item_calls_cases w record)
    as [Hc|[(b0 & k0 & Hc)
           |(b0 & k0 & w1 & response & image_data & sanitized
             & Hex & Hget & Hread & Hstrip & Hc)]];
    rewrite Hc in Heq; simpl in Heq.
  - by apply (Hlater l1 Heq []).
  - destruct l1 as [|c l1]; [discriminate|].
    injection Heq as <- Heq.
    by apply (Hlater l1 Heq [GetObject b0 k0]).
  - destruct l1 as [|c [|c' l1]]; [discriminate| |].
    + injection Heq as <- <- <- <- <- <-.
      exists 0%nat, record, b0, w1, response, image_data, [].
      by repeat split.
    + injection Heq as <- <- Heq.
      by apply (Hlater l1 Heq
                  [GetObject b0 k0;
                   PutObject (PStr OUTPUT_BUCKET) k0 sanitized
                     (default "image/jpeg" (ContentType response))]).
Qed.

(** X10. Whatever the batch, every upload the handler makes is the upload
    of one of its records: the record names an object, the download of
    that object on the store the earlier records left succeeded, its body
    was read, and the upload carries what [strip_exif_metadata] returned
    for those bytes, goes to [OUTPUT_BUCKET] under the key of the
    download, with the content type of the download or [image/jpeg], and
    is the call right after that download. *)
Theorem uploads_follow_downloads w records l1 l2 bucket key body content_type :
  snd (fr_world (process_records (recording s3_client) import_PIL OUTPUT_BUCKET
                   (w, []) records))
    = l1 ++ PutObject bucket key body content_type :: l2 ->
  exists i record bucket0 w1 response image_data l0,
    records !! i = Some record
    /\ extract record = Ok (bucket0, key)
    /\ get_object s3_client
         (world_before s3_client import_PIL OUTPUT_BUCKET w records i)
         bucket0 key
       = (w1, Ok response)
    /\ Body_read response = Ok image_data
    /\ strip_exif_metadata import_PIL image_data = Ok body
    /\ bucket = PStr OUTPUT_BUCKET
    /\ content_type = default "image/jpeg" (ContentType response)
    /\ l1 = l0 ++ [GetObject bucket0 key].
Proof.
  destruct (process_recording records w []) as [-> _]. simpl.
  apply batch_calls_upload.
Qed.

Lemma count_calls_app p l1 l2 :
  count_calls p (l1 ++ l2) = (count_calls p l1 + count_calls p l2)%nat.
Proof. unfold count_calls. by rewrite List.filter_app, length_app. Qed.

Lemma filter_length_app {A} (p : A -> bool) l1 l2 :
  length (List.filter p (l1 ++ l2))
  = (length (List.filter p l1) + length (List.filter p l2))%nat.
Proof. by rewrite List.filter_app, length_app. Qed.

(** The counts of one iteration. *)
Lemma item_counts w record w' d :
  run w record w' d ->
  count_calls is_get (calls w record)
    = (if is_Ok (extract record) then 1 else 0)%nat
  /\ ((if is_success d then 1 else 0) <= count_calls is_put (calls w record))%nat
  /\ (count_calls is_put (calls w record)
        <= count_calls is_get (calls w record))%nat.
Proof.
  intros Hrun. unfold item_calls, count_calls.
  destruct Hrun as [? ? ? []|];
    repeat match goal with
           | H : _ = _ |- _ => rewrite H; simpl
           end;
    repeat case_match; simpl; lia.
Qed.

(** X11. In every batch the handler downloads once per record whose
    bucket name and object key can be read, and not at all for the others;
    it uploads at most once per download, and at least once per [success]
    in the results. *)
Theorem download_and_upload_counts w records :
  let log := snd (fr_world (process_records (recording s3_client) import_PIL
                              OUTPUT_BUCKET (w, []) records)) in
  let results := fr_results (process_records s3_client import_PIL
                               OUTPUT_BUCKET w records) in
  length (List.filter is_get log)
    = length (List.filter (fun record => is_Ok (extract record)) records)
  /\ (length (List.filter is_success results)
        <= length (List.filter is_put log))%nat
  /\ (length (List.filter is_put log) <= length (List.filter is_get log))%nat.
Proof.
  cbv zeta. destruct (process_recording records w []) as [-> _]. simpl.
  revert w. induction records as [|record records IH]; intros w.
  - simpl. lia.
  - change (record :: records) with ([record] ++ records) at 3.
    destruct (process_records_app s3_client import_PIL
                OUTPUT_BUCKET w [record] records) as [Hw ->].
    destruct (loop_recording w record) as (w' & d & Hrun & Hbare & _).
    assert (H1 : process w [record]
                 = {| fr_world := w'; fr_results := [d];
                      fr_object_key := key_after record |}).
    { unfold process_records; simpl. by rewrite (Hbare (init_frame w) eq_refl). }
    rewrite H1; simpl. rewrite (Hbare (init_frame w) eq_refl); simpl.
    rewrite !filter_length_app.
    destruct (IH w') as (IHget & IHsucc & IHput).
    destruct (item_counts w record w' d Hrun) as (Hget & Hsucc & Hput).
    unfold count_calls in *.
    destruct (is_Ok (extract record)), (is_success d); simpl in *; lia.
Qed.


(** *** Records do not see each other *)

Section Isolation.

Variable same_inputs : W -> W -> Prop.
Hypothesis separated : S3_separated s3_client OUTPUT_BUCKET same_inputs.

Local Abbreviation elsewhere := (reads_elsewhere OUTPUT_BUCKET).

(** An iteration leaves the store in the class it found it in. *)
Lemma run_keeps w record w' d : run w record w' d -> same_inputs w w'.
Proof.
  pose proof (same_inputs_equiv _ _ _ separated) as Hequiv.
  pose proof (get_keeps _ _ _ separated) as Hget.
  pose proof (put_keeps _ _ _ separated) as Hput.
  assert (Hg : forall w bucket key w1 r,
             get_object s3_client w bucket key = (w1, r) -> same_inputs w w1).
  { intros w0 bucket key w1 r H. specialize (Hget w0 bucket key).
    by rewrite H in Hget. }
  assert (Hp : forall w key body ct w2 r,
             put_object s3_client w (PStr OUTPUT_BUCKET) key body ct = (w2, r) ->
             same_inputs w w2).
  { intros w0 key body ct w2 r H. specialize (Hput w0 key body ct).
    by rewrite H in Hput. }
  intros [? ? ? []|]; try reflexivity; eauto;
    (etransitivity; [eapply Hg|eapply Hp]; eauto).
Qed.

(** On two stores of one class, a record that reads elsewhere has the
    same outcome. *)
Lemma run_same_inputs w w' record w1 d :
  same_inputs w w' ->
  elsewhere record ->
  run w record w1 d ->
  exists w1', run w' record w1' d.
Proof.
  intros HR Helse Hrun.
  pose proof (same_inputs_equiv _ _ _ separated) as Hequiv.
  pose proof (get_respects _ _ _ separated) as Hget.
  pose proof (put_respects _ _ _ separated) as Hput.
  pose proof (get_keeps _ _ _ separated) as Hgk.
  assert (Hg : forall bucket key w1 r,
             extract record = Ok (bucket, key) ->
             get_object s3_client w bucket key = (w1, r) ->
             exists w1', get_object s3_client w' bucket key = (w1', r)
                         /\ same_inputs w1 w1').
  { intros bucket key w0 r Hex H.
    specialize (Hget w w' bucket key HR (Helse _ _ Hex)).
    pose proof (Hgk w bucket key) as Hk1. pose proof (Hgk w' bucket key) as Hk2.
    rewrite H in Hget, Hk1. simpl in *.
    destruct (get_object s3_client w' bucket key) as [w0' r']. simpl in *.
    subst r'. exists w0'. split; [done|].
    transitivity w; [by symmetry|]. by transitivity w'. }
  assert (Hp : forall w1 w1' key body ct w2 r,
             same_inputs w1 w1' ->
             put_object s3_client w1 (PStr OUTPUT_BUCKET) key body ct = (w2, r) ->
             exists w2',
               put_object s3_client w1' (PStr OUTPUT_BUCKET) key body ct = (w2', r)).
  { intros v v' key body ct w2 r HR' H.
    specialize (Hput v v' key body ct HR'). rewrite H in Hput. simpl in Hput.
    destruct (put_object s3_client v' (PStr OUTPUT_BUCKET) key body ct)
      as [w2' r']. simpl in *. subst r'. by exists w2'. }
  destruct Hrun as [w1 key e Herr|bucket key w0 response image_data sanitized w2
                                   Hex Hgo Hread Hstrip Hpo].
  - destruct Herr as [e Hex
                     |bucket key w0 e Hex Hgo
                     |bucket key w0 response e Hex Hgo Hread
                     |bucket key w0 response image_data e Hex Hgo Hread Hstrip
                     |bucket key w0 response image_data sanitized w2 e
                        Hex Hgo Hread Hstrip Hpo].
    + exists w'. by apply run_failure, err_malformed.
    + destruct (Hg _ _ _ _ Hex Hgo) as (w0' & Hgo' & _).
      exists w0'. by eapply run_failure, err_fetch.
    + destruct (Hg _ _ _ _ Hex Hgo) as (w0' & Hgo' & _).
      exists w0'. by eapply run_failure, err_read.
    + destruct (Hg _ _ _ _ Hex Hgo) as (w0' & Hgo' & _).
      exists w0'. by eapply run_failure, err_sanitize.
    + destruct (Hg _ _ _ _ Hex Hgo) as (w0' & Hgo' & HR0).
      destruct (Hp _ _ _ _ _ _ _ HR0 Hpo) as (w2' & Hpo').
      exists w2'. by eapply run_failure, err_write.
  - destruct (Hg _ _ _ _ Hex Hgo) as (w0' & Hgo' & HR0).
    destruct (Hp _ _ _ _ _ _ _ HR0 Hpo) as (w2' & Hpo').
    exists w2'. by eapply run_success.
Qed.

Lemma isolated_from w w' records :
  same_inputs w w' ->
  Forall elsewhere records ->
  fr_results (process w' records)
  = flat_map (fun record => fr_results (process w [record])) records.
Proof.
  intros HR Hrecords.
  pose proof (same_inputs_equiv _ _ _ separated) as Hequiv.
  revert w' HR.
  induction Hrecords as [|record records Helse _ IH]; intros w' HR; [done|].
  change (record :: records) with ([record] ++ records) at 1.
  destruct (process_records_app s3_client import_PIL
              OUTPUT_BUCKET w' [record] records) as [_ ->].
  destruct (process_records_one s3_client import_PIL OUTPUT_BUCKET w record)
    as (w1 & d & Hrun & _ & Hd).
  destruct (process_records_one s3_client import_PIL OUTPUT_BUCKET w' record)
    as (w1' & d' & Hrun' & Hw1' & Hd').
  destruct (run_same_inputs w w' record w1 d HR Helse Hrun) as (w1'' & Hrun'').
  destruct (item_run_det _ _ _ _ _ _ _ _ _ Hrun' Hrun'') as [-> ->].
  simpl. rewrite Hd, Hd', Hw1'. simpl. f_equal.
  apply IH. etransitivity; [exact HR|]. by eapply run_keeps.
Qed.

(** X12. When the S3 behind the client keeps the buckets apart and no
    record of the batch downloads from [OUTPUT_BUCKET], the records do not
    see each other: the results of the batch are, in order, the results
    each record gives when it is processed alone on the initial store. *)
Theorem records_isolated w records :
  Forall (reads_elsewhere OUTPUT_BUCKET) records ->
  fr_results (process_records s3_client import_PIL OUTPUT_BUCKET w records)
  = flat_map (fun record =>
                fr_results (process_records s3_client import_PIL OUTPUT_BUCKET
                              w [record]))
      records.
Proof.
  intros Hrecords.
  apply isolated_from; [|done].
  by destruct (same_inputs_equiv _ _ _ separated) as [Hrefl _ _].
Qed.

End Isolation.

End Further.

(** ** The further properties on the doubles *)

(** The in-memory S3 keeps the buckets apart. *)
Lemma mem_s3_separated (bucket : string) :
  S3_separated mem_s3 bucket (mem_same_inputs bucket).
Proof.
  split.
  - split.
    + by intros w.
    + intros w w' [Hb Ho]. split; [done|]. intros b k Hne. by rewrite Ho.
    + intros w1 w2 w3 [Hb1 Ho1] [Hb2 Ho2]. split; [congruence|].
      intros b k Hne. by rewrite Ho1, Ho2.
  - intros w b k. simpl. unfold mem_get_object.
    by repeat case_match.
  - intros w w' b k [Hb Ho] Hne. simpl. unfold mem_get_object.
    destruct b as [| | | |b| |]; try done.
    destruct k as [| | | |k| |]; try done.
    rewrite <- Hb, <- (Ho b k) by congruence.
    by repeat case_match.
  - intros w k body ct. simpl. unfold mem_put_object.
    destruct k as [| | | |k| |]; try done.
    case_decide; [|done]. split; [done|]. simpl.
    intros b k' Hne. rewrite lookup_insert_ne; [done|congruence].
  - intros w w' k body ct [Hb Ho]. simpl. unfold mem_put_object.
    destruct k as [| | | |k| |]; try done.
    rewrite <- Hb. by case_decide.
Qed.

Lemma sample_records_elsewhere :
  Forall (reads_elsewhere test_output_bucket) sample_records.
Proof.
  repeat constructor; intros bucket key Hex;
    vm_compute in Hex; by simplify_eq.
Qed.

(** With one bucket for input and output the records do see each other:
    the second download of [photo.png] gets what the first record
    uploaded. *)
Example shared_bucket_not_isolated :
  let record := s3_record "shared" "photo.png" in
  let process := process_records mem_s3 (Ok toy_PIL) "shared" shared_bucket_store in
  fr_results (process [record])
    = [success_outcome (PStr "photo.png") (PStr "photo.png")
         rgba_file rgba_sanitized]
  /\ fr_results (process [record; record])
     = [success_outcome (PStr "photo.png") (PStr "photo.png")
          rgba_file rgba_sanitized;
        success_outcome (PStr "photo.png") (PStr "photo.png")
          rgba_sanitized rgba_sanitized].
Proof. cbv zeta. split; vm_compute; reflexivity. Qed.

(** The calls of the sample batch. *)
Example sample_calls :
  snd (fr_world (process_records (recording mem_s3) (Ok toy_PIL)
                   test_output_bucket (test_store, []) sample_records))
  = [GetObject (PStr "test-input-bucket") (PStr "photo.png");
     PutObject (PStr "test-output-bucket") (PStr "photo.png")
       rgba_sanitized "image/png";
     GetObject (PStr "test-input-bucket") (PStr "missing.jpg");
     GetObject (PStr "test-input-bucket") (PStr "notes.txt");
     GetObject (PStr "test-input-bucket") (PStr "plain.jpg");
     PutObject (PStr "test-output-bucket") (PStr "plain.jpg")
       rgb_file "image/jpeg"].
Proof. vm_compute. reflexivity. Qed.

Lemma outcome_input_key_witness :
  let records := [orphan_key_record; s3_record "test-input-bucket" "missing.jpg"] in
  let d := error_outcome (PStr "") (Exn KeyError "'bucket'") in
  records !! 0%nat = Some orphan_key_record
  /\ fr_results (process_records mem_s3 (Ok toy_PIL) test_output_bucket
                   test_store records) !! 0%nat = Some d
  /\ object_key_of orphan_key_record = Ok (PStr "orphan.jpg")
  /\ input_key_of d = Some (PStr "").
Proof.
  cbv zeta. split; [reflexivity|].
  assert (H : fr_results (process_records mem_s3 (Ok toy_PIL) test_output_bucket
                test_store
                [orphan_key_record; s3_record "test-input-bucket" "missing.jpg"])
              !! 0%nat
              = Some (error_outcome (PStr "") (Exn KeyError "'bucket'")))
    by (vm_compute; reflexivity).
  split; [exact H|]. split; [reflexivity|].
  exact (outcome_input_key mem_s3 (Ok toy_PIL) test_output_bucket test_store
           [orphan_key_record; s3_record "test-input-bucket" "missing.jpg"]
           0%nat orphan_key_record _ eq_refl H).
Defined.

Lemma missing_field_message_witness :
  missing_field orphan_key_record = Some "bucket"
  /\ forall fr : frame,
       loop_body mem_s3 (Ok toy_PIL) test_output_bucket fr orphan_key_record
       = {| fr_world := fr_world fr;
            fr_results :=
              fr_results fr
                ++ [PDict [("status", PStr "error");
                           ("input_key", PStr "");
                           ("error", PStr "'bucket'")]];
            fr_object_key := PStr "" |}.
Proof.
  split; [reflexivity|].
  intros fr.
  exact (missing_field_message mem_s3 (Ok toy_PIL) test_output_bucket fr
           orphan_key_record "bucket" eq_refl).
Defined.

Lemma records_not_a_list_witness :
  test_json_dumps (PDict [("Records", PStr "ab")])
  = Ok (simple_json_dumps (PDict [("Records", PStr "ab")]))
  /\ dict_lookup "Records" [("Records", PStr "ab")] = Some (PStr "ab")
  /\ exists items,
       py_iter (PStr "ab") = Ok items
       /\ test_handler test_store (PDict [("Records", PStr "ab")])
          = (test_store,
             response_of test_json_dumps
               (replicate (length items)
                  (PDict [("status", PStr "error");
                          ("input_key", PStr "");
                          ("error",
                           PStr "string indices must be integers, not 'str'")]))).
Proof.
  split; [reflexivity|]. split; [reflexivity|].
  exact (records_not_a_list mem_s3 (Ok toy_PIL) test_output_bucket
           test_json_dumps test_store [("Records", PStr "ab")] (PStr "ab")
           (simple_json_dumps (PDict [("Records", PStr "ab")]))
           eq_refl eq_refl I).
Defined.

Lemma batch_split_witness :
  let rs1 := [s3_record "test-input-bucket" "photo.png"] in
  let rs2 := [s3_record "test-input-bucket" "missing.jpg"] in
  let w1 := fst (test_handler test_store (batch_event rs1)) in
  test_json_dumps (batch_event rs1) = Ok (simple_json_dumps (batch_event rs1))
  /\ test_json_dumps (batch_event rs2) = Ok (simple_json_dumps (batch_event rs2))
  /\ test_json_dumps (batch_event (rs1 ++ rs2))
     = Ok (simple_json_dumps (batch_event (rs1 ++ rs2)))
  /\ test_handler test_store (batch_event (rs1 ++ rs2))
     = (fst (test_handler w1 (batch_event rs2)),
        response_of test_json_dumps
          (fr_results (process_records mem_s3 (Ok toy_PIL) test_output_bucket
                         test_store rs1)
           ++ fr_results (process_records mem_s3 (Ok toy_PIL)
                            test_output_bucket w1 rs2))).
Proof.
  cbv zeta.
  assert (H1 : test_json_dumps
                 (batch_event [s3_record "test-input-bucket" "photo.png"])
               = Ok (simple_json_dumps
                       (batch_event [s3_record "test-input-bucket" "photo.png"])))
    by reflexivity.
  assert (H2 : test_json_dumps
                 (batch_event [s3_record "test-input-bucket" "missing.jpg"])
               = Ok (simple_json_dumps
                       (batch_event [s3_record "test-input-bucket" "missing.jpg"])))
    by reflexivity.
  assert (H12 : test_json_dumps
                  (batch_event ([s3_record "test-input-bucket" "photo.png"]
                                ++ [s3_record "test-input-bucket" "missing.jpg"]))
                = Ok (simple_json_dumps
                        (batch_event
                           ([s3_record "test-input-bucket" "photo.png"]
                            ++ [s3_record "test-input-bucket" "missing.jpg"]))))
    by reflexivity.
  split; [exact H1|]. split; [exact H2|]. split; [exact H12|].
  destruct (batch_split mem_s3 (Ok toy_PIL) test_output_bucket test_json_dumps
              test_store
              [s3_record "test-input-bucket" "photo.png"]
              [s3_record "test-input-bucket" "missing.jpg"]
              _ _ _ H1 H2 H12) as (_ & _ & H).
  exact H.
Defined.

Lemma results_well_formed_witness :
  let results := fr_results (process_records mem_s3 (Ok toy_PIL)
                               test_output_bucket test_store sample_records) in
  let d := error_outcome (PStr "missing.jpg") NoSuchKey in
  d ∈ results
  /\ ((exists key (image_data sanitized : list byte),
         d = PDict [("status", PStr "success");
                    ("input_key", key);
                    ("output_key", key);
                    ("input_size", PInt (Z.of_nat (length image_data)));
                    ("output_size", PInt (Z.of_nat (length sanitized)))])
      \/ (exists key e,
            d = PDict [("status", PStr "error");
                       ("input_key", key);
                       ("error", PStr (exn_str e))])).
Proof.
  cbv zeta.
  assert (H : error_outcome (PStr "missing.jpg") NoSuchKey
              ∈ fr_results (process_records mem_s3 (Ok toy_PIL)
                              test_output_bucket test_store sample_records)).
  { rewrite sample_results. apply list_elem_of_lookup. by exists 1%nat. }
  split; [exact H|].
  exact (results_well_formed mem_s3 (Ok toy_PIL) test_output_bucket test_store
           sample_records _ H).
Defined.

Lemma strip_never_raises_ImportError_witness :
  strip_exif_metadata (Ok toy_PIL_no_encoder) rgb_file = Raise pillow_unavailable
  /\ is_ImportError pillow_unavailable = false.
Proof.
  split; [reflexivity|].
  exact (strip_never_raises_ImportError (Ok toy_PIL_no_encoder) rgb_file
           pillow_unavailable eq_refl).
Defined.

Lemma import_error_anywhere_witness :
  is_ImportError no_encoder_error = true
  /\ (exists i, Image_open toy_PIL_no_encoder rgb_file = Ok i
                /\ Image_mode toy_PIL_no_encoder i = "RGB"
                /\ Image_save toy_PIL_no_encoder i "JPEG" 95 []
                   = Raise no_encoder_error)
  /\ strip_exif_metadata (Ok toy_PIL_no_encoder) rgb_file
     = Raise (Exn RuntimeError "Image processing library not available").
Proof.
  assert (H : exists i, Image_open toy_PIL_no_encoder rgb_file = Ok i
                /\ Image_mode toy_PIL_no_encoder i = "RGB"
                /\ Image_save toy_PIL_no_encoder i "JPEG" 95 []
                   = Raise no_encoder_error)
    by (eexists; split; [reflexivity|split; reflexivity]).
  split; [reflexivity|]. split; [exact H|].
  exact (import_error_anywhere (Ok toy_PIL_no_encoder) toy_PIL_no_encoder
           rgb_file no_encoder_error eq_refl eq_refl
           (or_intror (or_intror (or_introl H)))).
Defined.

Lemma strip_success_reencoded_witness :
  strip_exif_metadata (Ok toy_PIL) rgba_file = Ok rgba_sanitized
  /\ exists P i i',
       Ok toy_PIL = Ok P
       /\ Image_open P rgba_file = Ok i
       /\ (Image_mode P i = "RGB" /\ i' = i
           \/ Image_mode P i <> "RGB" /\ Image_convert P i "RGB" = Ok i')
       /\ Image_save P i' "JPEG" 95 [] = Ok rgba_sanitized.
Proof.
  split; [reflexivity|].
  exact (strip_success_reencoded (Ok toy_PIL) rgba_file rgba_sanitized eq_refl).
Defined.

Lemma uploads_follow_downloads_witness :
  let l1 := [GetObject (PStr "test-input-bucket") (PStr "photo.png")] in
  let l2 := [GetObject (PStr "test-input-bucket") (PStr "missing.jpg");
             GetObject (PStr "test-input-bucket") (PStr "notes.txt");
             GetObject (PStr "test-input-bucket") (PStr "plain.jpg");
             PutObject (PStr "test-output-bucket") (PStr "plain.jpg")
               rgb_file "image/jpeg"] in
  snd (fr_world (process_records (recording mem_s3) (Ok toy_PIL)
                   test_output_bucket (test_store, []) sample_records))
  = l1 ++ PutObject (PStr "test-output-bucket") (PStr "photo.png")
            rgba_sanitized "image/png" :: l2
  /\ exists i record bucket0 w1 response image_data l0,
       sample_records !! i = Some record
       /\ extract record = Ok (bucket0, PStr "photo.png")
       /\ get_object mem_s3
            (world_before mem_s3 (Ok toy_PIL) test_output_bucket
               test_store sample_records i)
            bucket0 (PStr "photo.png")
          = (w1, Ok response)
       /\ Body_read response = Ok image_data
       /\ strip_exif_metadata (Ok toy_PIL) image_data = Ok rgba_sanitized
       /\ PStr "test-output-bucket" = PStr test_output_bucket
       /\ "image/png" = default "image/jpeg" (ContentType response)
       /\ l1 = l0 ++ [GetObject bucket0 (PStr "photo.png")].
Proof.
  cbv zeta.
  split; [exact sample_calls|].
  exact (uploads_follow_downloads mem_s3 (Ok toy_PIL) test_output_bucket
           test_store sample_records
           [GetObject (PStr "test-input-bucket") (PStr "photo.png")]
           [GetObject (PStr "test-input-bucket") (PStr "missing.jpg");
            GetObject (PStr "test-input-bucket") (PStr "notes.txt");
            GetObject (PStr "test-input-bucket") (PStr "plain.jpg");
            PutObject (PStr "test-output-bucket") (PStr "plain.jpg")
              rgb_file "image/jpeg"]
           (PStr "test-output-bucket") (PStr "photo.png")
           rgba_sanitized "image/png" sample_calls).
Defined.

Lemma records_isolated_witness :
  Forall (reads_elsewhere test_output_bucket) sample_records
  /\ fr_results (process_records mem_s3 (Ok toy_PIL) test_output_bucket
                   test_store sample_records)
     = flat_map (fun record =>
                   fr_results (process_records mem_s3 (Ok toy_PIL)
                                 test_output_bucket test_store [record]))
         sample_records.
Proof.
  split; [exact sample_records_elsewhere|].
  exact (records_isolated mem_s3 (Ok toy_PIL) test_output_bucket
           (mem_same_inputs test_output_bucket)
           (mem_s3_separated test_output_bucket)
           test_store sample_records sample_records_elsewhere).
Defined.
